(** * Dispatch plot: a shallow embedding of [dispatch_plot.py]

    The script slices one day out of an hourly energy-balance table and
    draws it as a stacked-area chart.  The embedding follows the Python
    text line by line:

    - energy quantities (kWh) are exact rationals [Q]; the rounding of
      binary floating point is not modelled, and equalities between sums
      are stated with [Qeq]; what the arithmetic of real columns (binary64
      numbers, 64-bit integers) changes is shown on single expressions
      replayed in that arithmetic;
    - a pandas [DataFrame] is a row count with named columns, a [Series]
      and a numpy array are lists of values;
    - a Python exception is a value of [Exception]; fallible code lives
      in the error monad [Exception + _];
    - the file system and the standard output form an explicit [World]. *)

From Corelib Require Import PrimFloat.
From Stdlib Require Import QArith Ascii String.
From stdpp Require Import base list strings gmap pretty.

Local Open Scope Z_scope.

(** ** Exceptions and the error monad *)

(** The exception classes of Python and its libraries that matter for the
    script.  [KeyError] is raised by a subscript with an absent key,
    [ValueError] by an arithmetic operation or a plotting call on
    operands of different lengths (the two lengths are recorded),
    [FileNotFoundError] by writing below a directory that does not
    exist.  [IndexError] is what Python raises for a position out of
    range; it is listed because the specification speaks of an
    out-of-range error. *)
Inductive Exception : Type :=
  | KeyError (key : string)
  | ValueError (len1 len2 : nat)
  | IndexError
  | FileNotFoundError (path : string).

Definition Result (A : Type) : Type := (Exception + A)%type.

Definition ok {A} (a : A) : Result A := inr a.
Definition raise {A} (e : Exception) : Result A := inl e.

Definition bind {A B} (r : Result A) (k : A -> Result B) : Result B :=
  match r with
  | inl e => inl e
  | inr a => k a
  end.

Notation "'do' x <- e ; k" := (bind e (fun x => k))
  (at level 10, x name, e at level 100, k at level 200,
   format "'[v' 'do'  x  <-  e ; '/' k ']'").

(** ** numpy arrays and pandas series *)

(** Both are sequences of values addressed by position. *)
Abbreviation ndarray := (list Q) (only parsing).
Abbreviation Series := (list Q) (only parsing).

(** [np.zeros(n)] *)
Definition np_zeros (n : nat) : ndarray := replicate n 0%Q.

(** [range(n)] *)
Definition range (n : nat) : list nat := seq 0 n.

(** [a + s] for an array and a series, and for two series of one frame:
    element by element.  Operands of different lengths are rejected with
    a [ValueError]: either numpy cannot broadcast the two shapes, or (one
    operand of length one) the broadcast result no longer fits the index
    of the series.  The sums are exact; rounding and wrap-around are the
    matter of the section on the arithmetic of the columns. *)
Definition add (a s : list Q) : Result Series :=
  if decide (length a = length s)
  then ok (zip_with Qplus a s)
  else raise (ValueError (length a) (length s)).

(** [a += s] on an array: the sum is written back into [a]. *)
Definition iadd (a : ndarray) (s : Series) : Result ndarray := add a s.

(** unary minus *)
Definition neg (a : list Q) : list Q := map Qopp a.

(** ** Data frames *)

Record DataFrame : Type := {
  nrows : nat;
  columns : list (string * Series)
}.

(** Every column of a frame has one value per row. *)
Definition frame_ok (df : DataFrame) : Prop :=
  Forall (fun c => length (snd c) = nrows df) (columns df).

Fixpoint find_column (name : string) (cols : list (string * Series)) : option Series :=
  match cols with
  | [] => None
  | (n, s) :: rest => if String.eqb n name then Some s else find_column name rest
  end.

(** [df[name]], a series when the label [name] occurs once (see
    [unique_labels] below for repeated labels) *)
Definition getitem (df : DataFrame) (name : string) : Result Series :=
  match find_column name (columns df) with
  | Some s => ok s
  | None => raise (KeyError name)
  end.

(** A bound of a Python slice over a sequence of [len] elements: a
    negative bound counts from the end, and every bound is clamped into
    [0, len]. *)
Definition slice_bound (len i : Z) : Z :=
  if i <? 0 then Z.max (i + len) 0 else Z.min i len.

(** [l[start:stop]]; never fails, an empty or reversed range is empty. *)
Definition slice {A} (l : list A) (start stop : Z) : list A :=
  let len := Z.of_nat (length l) in
  let lo := slice_bound len start in
  let hi := slice_bound len stop in
  take (Z.to_nat (hi - lo)) (drop (Z.to_nat lo) l).

(** [df.iloc[start:stop]] slices the index and every column. *)
Definition iloc (df : DataFrame) (start stop : Z) : DataFrame :=
  {| nrows := length (slice (seq 0 (nrows df)) start stop);
     columns := map (fun c => (fst c, slice (snd c) start stop)) (columns df) |}.

(** ** The chart *)

(** The constant colour table of the script. *)
Definition color_dict : gmap string string :=
  list_to_map [
    ("Solar Production", "#FFD700");
    ("Battery Charge", "#ADD8E6");
    ("Battery Discharge", "#ADD8E6");
    ("Generator", "#FF4500");
    ("Curtailment", "#FFA500");
    ("Load", "#000000");
    ("Lost Load", "#FF0000")].

(** [d[key]] on a dictionary *)
Definition dict_getitem (d : gmap string string) (key : string) : Result string :=
  match d !! key with
  | Some v => ok v
  | None => raise (KeyError key)
  end.

(** A filled band between the curves [y1] and [y2] over the abscissae
    [x], as [fill_between] adds it to the axes. *)
Record Band : Type := {
  band_x : list nat;
  band_y1 : list Q;
  band_y2 : list Q;
  band_label : string;
  band_color : string;
  band_alpha : Q
}.

(** A curve, as [plot] adds it to the axes. *)
Record Line : Type := {
  line_x : list nat;
  line_y : list Q;
  line_label : string;
  line_color : string;
  line_width : nat;
  line_style : string
}.

Record Legend : Type := {
  legend_loc : string;
  legend_anchor : Q * Q;
  legend_frameon : option bool;
  legend_fontsize : option nat
}.

(** The axes object [ax]: the artists in the order of their creation and
    the decorations. *)
Record Axes : Type := {
  bands : list Band;
  lines : list Line;
  xlabel : string;
  ylabel : string;
  title : string;
  legend : option Legend;
  grid : bool
}.

Record Figure : Type := {
  figsize : nat * nat;
  fig_axes : Axes;
  tight_layout : bool
}.

(** The axes of [plt.subplots]: nothing drawn yet. *)
Definition subplots : Axes :=
  {| bands := []; lines := []; xlabel := ""; ylabel := ""; title := "";
     legend := None; grid := false |}.

(** [ax.fill_between(x, y1, y2, label=, color=, alpha=)]: both curves
    need one value per abscissa. *)
Definition fill_between (ax : Axes) (x : list nat) (y1 y2 : list Q)
    (label color : string) (alpha : Q) : Result Axes :=
  if decide (length y1 = length x) then
    if decide (length y2 = length x) then
      ok {| bands := bands ax ++
                     [{| band_x := x; band_y1 := y1; band_y2 := y2;
                         band_label := label; band_color := color;
                         band_alpha := alpha |}];
            lines := lines ax; xlabel := xlabel ax; ylabel := ylabel ax;
            title := title ax; legend := legend ax; grid := grid ax |}
    else raise (ValueError (length x) (length y2))
  else raise (ValueError (length x) (length y1)).

(** [ax.plot(x, y, label=, color=, linewidth=, linestyle=)] *)
Definition plot (ax : Axes) (x : list nat) (y : list Q)
    (label color : string) (width : nat) (style : string) : Result Axes :=
  if decide (length y = length x) then
    ok {| bands := bands ax;
          lines := lines ax ++
                   [{| line_x := x; line_y := y; line_label := label;
                       line_color := color; line_width := width;
                       line_style := style |}];
          xlabel := xlabel ax; ylabel := ylabel ax;
          title := title ax; legend := legend ax; grid := grid ax |}
  else raise (ValueError (length x) (length y)).

Definition set_xlabel (ax : Axes) (s : string) : Axes :=
  {| bands := bands ax; lines := lines ax; xlabel := s; ylabel := ylabel ax;
     title := title ax; legend := legend ax; grid := grid ax |}.

Definition set_ylabel (ax : Axes) (s : string) : Axes :=
  {| bands := bands ax; lines := lines ax; xlabel := xlabel ax; ylabel := s;
     title := title ax; legend := legend ax; grid := grid ax |}.

Definition set_title (ax : Axes) (s : string) : Axes :=
  {| bands := bands ax; lines := lines ax; xlabel := xlabel ax;
     ylabel := ylabel ax; title := s; legend := legend ax; grid := grid ax |}.

(** [ax.legend(...)] replaces the legend of the axes. *)
Definition set_legend (ax : Axes) (l : Legend) : Axes :=
  {| bands := bands ax; lines := lines ax; xlabel := xlabel ax;
     ylabel := ylabel ax; title := title ax; legend := Some l;
     grid := grid ax |}.

Definition set_grid (ax : Axes) (b : bool) : Axes :=
  {| bands := bands ax; lines := lines ax; xlabel := xlabel ax;
     ylabel := ylabel ax; title := title ax; legend := legend ax;
     grid := b |}.

(** ** The world outside the process *)

(** Directories, image files by path, and the lines printed so far. *)
Record World : Type := {
  dirs : gset string;
  files : gmap string Figure;
  stdout : list string
}.

Definition slash : ascii := "/"%char.

Fixpoint has_slash (s : string) : bool :=
  match s with
  | EmptyString => false
  | String c rest => if Ascii.eqb c slash then true else has_slash rest
  end.

(** The directory part of a relative path: what precedes the last
    slash, empty for a bare file name. *)
Fixpoint dirname (s : string) : string :=
  match s with
  | EmptyString => EmptyString
  | String c rest => if has_slash rest then String c (dirname rest) else EmptyString
  end.

(** [plt.savefig(path)]: the image of the figure replaces whatever the
    path held; the directory of the path has to exist.  The other ways
    in which writing a file can fail (the path names a directory, the
    directory is read-only, the disk is full) are not described. *)
Definition savefig (w : World) (path : string) (fig : Figure) : Result World :=
  if decide (dirname path = "" ∨ dirname path ∈ dirs w) then
    ok {| dirs := dirs w; files := <[path := fig]> (files w); stdout := stdout w |}
  else raise (FileNotFoundError path).

(** [print(msg)] *)
Definition print (w : World) (msg : string) : World :=
  {| dirs := dirs w; files := files w; stdout := stdout w ++ [msg] |}.

(** ** [create_dispatch_plot] *)

(** The local variables of [create_dispatch_plot] that the properties
    below speak about, as they stand when the drawing is complete. *)
Record Locals : Type := {
  daily_data : DataFrame;
  ax : Axes;
  cumulative_outflow : ndarray;
  cumulative_inflow : ndarray
}.

(** The body of [create_dispatch_plot] up to [plt.tight_layout()]: the
    day is sliced out of [data] and drawn on fresh axes.  Every subscript
    [daily_data[...]] and every sum is evaluated where the Python text
    evaluates it, so the first failing one decides the exception. *)
Definition create_dispatch_plot_body (data : DataFrame) (day : Z)
    (has_generator : bool) : Result Locals :=
  (* Filter data for the selected day *)
  let hours_per_day := 24%nat in
  let start_idx := day * Z.of_nat hours_per_day in
  let end_idx := start_idx + Z.of_nat hours_per_day in
  let daily_data := iloc data start_idx end_idx in
  (* Initialize the plot *)
  let ax := subplots in
  let x := range hours_per_day in
  let cumulative_outflow := np_zeros hours_per_day in
  let cumulative_inflow := np_zeros hours_per_day in
  (* Plot Solar Production *)
  do s <- getitem daily_data "Solar Production (kWh)";
  do y2 <- add cumulative_outflow s;
  do c <- dict_getitem color_dict "Solar Production";
  do ax <- fill_between ax x cumulative_outflow y2 "Solar Production" c (1 # 2);
  do s <- getitem daily_data "Solar Production (kWh)";
  do cumulative_outflow <- iadd cumulative_outflow s;
  (* Plot Battery Charge *)
  let y1 := neg cumulative_inflow in
  do s <- getitem daily_data "Battery Charge (kWh)";
  do y2 <- add cumulative_inflow s;
  let y2 := neg y2 in
  do c <- dict_getitem color_dict "Battery Charge";
  do ax <- fill_between ax x y1 y2 "Battery Charging" c (1 # 2);
  do s <- getitem daily_data "Battery Charge (kWh)";
  do cumulative_inflow <- iadd cumulative_inflow s;
  (* Plot Battery Discharge *)
  do s <- getitem daily_data "Battery Discharge (kWh)";
  do y2 <- add cumulative_outflow s;
  do c <- dict_getitem color_dict "Battery Discharge";
  do ax <- fill_between ax x cumulative_outflow y2 "Battery Discharging" c (1 # 2);
  do s <- getitem daily_data "Battery Discharge (kWh)";
  do cumulative_outflow <- iadd cumulative_outflow s;
  (* Plot Generator (if applicable) *)
  do st <-
    (if has_generator then
       do s <- getitem daily_data "Generator Production (kWh)";
       do y2 <- add cumulative_outflow s;
       do c <- dict_getitem color_dict "Generator";
       do ax <- fill_between ax x cumulative_outflow y2 "Generator" c (1 # 2);
       do s <- getitem daily_data "Generator Production (kWh)";
       do cumulative_outflow <- iadd cumulative_outflow s;
       ok (ax, cumulative_outflow)
     else ok (ax, cumulative_outflow));
  let ax := fst st in
  let cumulative_outflow := snd st in
  (* Plot Lost Load *)
  do s <- getitem daily_data "Lost Load (kWh)";
  do y2 <- add cumulative_outflow s;
  do c <- dict_getitem color_dict "Lost Load";
  do ax <- fill_between ax x cumulative_outflow y2 "Lost Load" c (1 # 2);
  (* Plot Load *)
  do s <- getitem daily_data "Load (kWh)";
  do c <- dict_getitem color_dict "Load";
  do ax <- plot ax x s "Load" c 2 "-";
  (* Plot maximum solar production *)
  do s <- getitem daily_data "Solar Production (kWh)";
  do k <- getitem daily_data "Curtailment (kWh)";
  do y <- add s k;
  do ax <- plot ax x y "Max Solar Production" "orange" 2 "--";
  (* Add labels, title, legend, and grid *)
  let ax := set_xlabel ax "Hour" in
  let ax := set_ylabel ax "Energy (kWh)" in
  let ax := set_title ax ("Dispatch Plot - Day " +:+ pretty (day + 1)) in
  let ax := set_legend ax
              {| legend_loc := "center left"; legend_anchor := (1, 1 # 2)%Q;
                 legend_frameon := None; legend_fontsize := None |} in
  let ax := set_grid ax true in
  (* Adjust legend inside the plot (upper left) *)
  let ax := set_legend ax
              {| legend_loc := "upper left";
                 legend_anchor := (1 # 100, 99 # 100)%Q;
                 legend_frameon := Some true; legend_fontsize := Some 10%nat |} in
  ok {| daily_data := daily_data; ax := ax;
        cumulative_outflow := cumulative_outflow;
        cumulative_inflow := cumulative_inflow |}.

(** The path [plt.savefig] is called with. *)
Definition output_path : string := "results/dispatch_plot.png".

(** The line printed after saving. *)
Definition confirmation : string :=
  "Dispatch plot saved as dispatch_plot.png in expected_values/results folder".

(** [create_dispatch_plot(data, day, has_generator)]: draw, lay out, save
    the figure, print the confirmation. *)
Definition create_dispatch_plot (w : World) (data : DataFrame) (day : Z)
    (has_generator : bool) : Result World :=
  do l <- create_dispatch_plot_body data day has_generator;
  let fig := {| figsize := (12, 8)%nat; fig_axes := ax l; tight_layout := true |} in
  do w <- savefig w output_path fig;
  ok (print w confirmation).

(** How the process ends: normally, or with the traceback of an
    exception nobody caught. *)
Inductive Outcome : Type :=
  | Exited (w : World)
  | Traceback (e : Exception).

(** The last line of the script, [create_dispatch_plot(data, day=0,
    has_generator=False)], for the frame [data] read at its start: there
    is no [try] anywhere, so an exception ends the process. *)
Definition script (w : World) (data : DataFrame) : Outcome :=
  match create_dispatch_plot w data 0 false with
  | inl e => Traceback e
  | inr w' => Exited w'
  end.

(** ** What a complete drawing looks like

    The artists and running totals that [create_dispatch_plot_body]
    leaves behind when nothing fails, written as functions of the seven
    columns of the day ([gen] is [None] when the generator is not drawn).
    The lemma [body_success] below shows that a successful run produces
    exactly these. *)
Section Drawing.
Variables solar charge discharge lost load curt : Series.
Variable gen : option Series.

Definition after_solar : ndarray := zip_with Qplus (np_zeros 24) solar.
Definition after_charge : ndarray := zip_with Qplus (np_zeros 24) charge.
Definition after_discharge : ndarray := zip_with Qplus after_solar discharge.
Definition after_generator : ndarray :=
  match gen with
  | Some g => zip_with Qplus after_discharge g
  | None => after_discharge
  end.

Definition layer (y1 y2 : list Q) (label color : string) : Band :=
  {| band_x := range 24; band_y1 := y1; band_y2 := y2;
     band_label := label; band_color := color; band_alpha := 1 # 2 |}.

Definition solar_band : Band :=
  layer (np_zeros 24) after_solar "Solar Production" "#FFD700".
Definition charge_band : Band :=
  layer (neg (np_zeros 24)) (neg after_charge) "Battery Charging" "#ADD8E6".
Definition discharge_band : Band :=
  layer after_solar after_discharge "Battery Discharging" "#ADD8E6".
Definition generator_band (g : Series) : Band :=
  layer after_discharge (zip_with Qplus after_discharge g) "Generator" "#FF4500".
Definition lost_band : Band :=
  layer after_generator (zip_with Qplus after_generator lost) "Lost Load" "#FF0000".

Definition drawn_bands : list Band :=
  [solar_band; charge_band; discharge_band]
  ++ match gen with Some g => [generator_band g] | None => [] end
  ++ [lost_band].

Definition load_line : Line :=
  {| line_x := range 24; line_y := load; line_label := "Load";
     line_color := "#000000"; line_width := 2; line_style := "-" |}.
Definition max_solar_line : Line :=
  {| line_x := range 24; line_y := zip_with Qplus solar curt;
     line_label := "Max Solar Production"; line_color := "orange";
     line_width := 2; line_style := "--" |}.

Definition drawn_axes (day : Z) : Axes :=
  {| bands := drawn_bands;
     lines := [load_line; max_solar_line];
     xlabel := "Hour";
     ylabel := "Energy (kWh)";
     title := "Dispatch Plot - Day " +:+ pretty (day + 1);
     legend := Some {| legend_loc := "upper left";
                       legend_anchor := (1 # 100, 99 # 100)%Q;
                       legend_frameon := Some true;
                       legend_fontsize := Some 10%nat |};
     grid := true |}.
End Drawing.

(** The value of a column of a frame at a row, if both exist. *)
Definition cell (df : DataFrame) (name : string) (row : nat) : option Q :=
  match find_column name (columns df) with
  | Some s => s !! row
  | None => None
  end.

(** The band of the axes drawn under a legend label. *)
Definition band_of (a : Axes) (label : string) : option Band :=
  List.find (fun b => String.eqb (band_label b) label) (bands a).

(** The curve of the axes drawn under a legend label. *)
Definition line_of (a : Axes) (label : string) : option Line :=
  List.find (fun c => String.eqb (line_label c) label) (lines a).

(** The curve [ys] has the value [v] at hour [h]; values are compared as
    rational numbers. *)
Definition value_at (ys : list Q) (h : nat) (v : Q) : Prop :=
  ∃ y, ys !! h = Some y ∧ (y == v)%Q.

(** At hour [h] the band [b] reaches from [lo] to [hi]. *)
Definition band_at (b : Band) (h : nat) (lo hi : Q) : Prop :=
  value_at (band_y1 b) h lo ∧ value_at (band_y2 b) h hi.

(** The slice of the day the function draws. *)
Definition day_slice (data : DataFrame) (day : Z) : DataFrame :=
  iloc data (day * 24) (day * 24 + 24).

(** The columns a run subscripts, in the order of their first use. *)
Definition required_columns (has_generator : bool) : list string :=
  ["Solar Production (kWh)"; "Battery Charge (kWh)"; "Battery Discharge (kWh)"]
  ++ (if has_generator then ["Generator Production (kWh)"] else [])
  ++ ["Lost Load (kWh)"; "Load (kWh)"; "Curtailment (kWh)"].

(** Whether a frame has a column, and the first column a run would miss. *)
Definition has_column (df : DataFrame) (name : string) : bool :=
  match find_column name (columns df) with
  | Some _ => true
  | None => false
  end.

Definition first_missing (df : DataFrame) (has_generator : bool) : option string :=
  List.find (fun name => negb (has_column df name)) (required_columns has_generator).

(** The column labels of a frame are pairwise different, as they are in
    every frame that [read_csv] builds (it renames a repeated header).
    For a repeated label pandas answers a subscript with a frame of
    several columns, not with a series, which [getitem] does not
    describe: the properties that depend on it are stated for frames
    with unique labels. *)
Definition unique_labels (df : DataFrame) : Prop :=
  NoDup (map fst (columns df)).

(** ** The arithmetic of the columns

    The columns of a frame read from a file are binary64 floating-point
    numbers, or 64-bit integers where the file has no decimal point in a
    column.  The definitions below replay single expressions of
    [create_dispatch_plot] in those arithmetics, for what exact
    rationals hide: rounding, [nan] and wrap-around. *)

(** The running outflow total of lines 32 to 55 on float64 columns of 24
    values: zeros, [+= solar], [+= discharge] and, with the generator,
    [+= generator]. *)
Definition cumulative_outflow_float64 (solar discharge generator : list float)
    (has_generator : bool) : list float :=
  let cumulative_outflow := replicate 24 0%float in
  let cumulative_outflow := zip_with PrimFloat.add cumulative_outflow solar in
  let cumulative_outflow := zip_with PrimFloat.add cumulative_outflow discharge in
  if has_generator
  then zip_with PrimFloat.add cumulative_outflow generator
  else cumulative_outflow.





(** A day of the float64 values nearest to 0.1, to 0.2 and to 0.3. *)
Definition day_of_tenths : list float := replicate 24 0x1.999999999999ap-4%float.
Definition day_of_fifths : list float := replicate 24 0x1.999999999999ap-3%float.
Definition day_of_three_tenths : list float :=
  replicate 24 0x1.3333333333333p-2%float.

(** ** Sample inputs *)

(** A column of [n] hours: [k], [k + 10], [k + 20], ... *)
Definition ramp (n : nat) (k : Z) : Series :=
  map (fun i => inject_Z (k + 10 * Z.of_nat i)) (seq 0 n).

(** A frame of [n] rows with the seven columns of the dispatch table. *)
Definition sample (n : nat) : DataFrame :=
  {| nrows := n;
     columns := [
       ("Solar Production (kWh)", ramp n 1);
       ("Battery Charge (kWh)", ramp n 2);
       ("Battery Discharge (kWh)", ramp n 3);
       ("Generator Production (kWh)", ramp n 4);
       ("Curtailment (kWh)", ramp n 5);
       ("Lost Load (kWh)", ramp n 6);
       ("Load (kWh)", ramp n 7)] |}.

(** The frame [df] without the column [name]. *)
Definition without (name : string) (df : DataFrame) : DataFrame :=
  {| nrows := nrows df;
     columns := List.filter (fun c => negb (String.eqb (fst c) name)) (columns df) |}.

(** The frame [df] with the values of the column [name] replaced. *)
Definition set_column (name : string) (s : Series) (df : DataFrame) : DataFrame :=
  {| nrows := nrows df;
     columns := map (fun c => if String.eqb (fst c) name then (fst c, s) else c)
                    (columns df) |}.

(** A world whose [results] directory already holds an older image. *)
Definition old_figure : Figure :=
  {| figsize := (1, 1)%nat; fig_axes := subplots; tight_layout := false |}.

Definition sample_world : World :=
  {| dirs := {["results"]};
     files := {[output_path := old_figure]};
     stdout := ["earlier output"] |}.

(** The locals of a run that is known to succeed (empty ones otherwise),
    and likewise the world it leaves. *)
Definition locals_of (r : Result Locals) : Locals :=
  match r with
  | inr l => l
  | inl _ => {| daily_data := {| nrows := 0; columns := [] |}; ax := subplots;
                cumulative_outflow := []; cumulative_inflow := [] |}
  end.

Definition world_of (r : Result World) (w : World) : World :=
  match r with
  | inr w' => w'
  | inl _ => w
  end.

(** The second day of a two-day sample and the first day of a one-day
    sample, both with the generator drawn. *)
Definition second_day_on : Locals :=
  locals_of (create_dispatch_plot_body (sample 48) 1 true).
Definition first_day_on : Locals :=
  locals_of (create_dispatch_plot_body (sample 24) 0 true).

(** The second day of the sample after its battery charges are changed. *)
Definition recharged : DataFrame :=
  set_column "Battery Charge (kWh)" (ramp 48 9) (sample 48).
Definition second_day_recharged : Locals :=
  locals_of (create_dispatch_plot_body recharged 1 true).

(** The world after plotting the second day of the sample. *)
Definition world_after : World :=
  world_of (create_dispatch_plot sample_world (sample 48) 1 true) sample_world.

(** The second day of the sample without the generator. *)
Definition second_day_off : Locals :=
  locals_of (create_dispatch_plot_body (sample 48) 1 false).

(** The world after the first day of the sample is plotted over the
    second. *)
Definition world_after_twice : World :=
  world_of (create_dispatch_plot world_after (sample 48) 0 false) world_after.

(** The band drawn last on the second day of the sample. *)
Definition second_day_top_band : Band :=
  List.last (bands (ax second_day_on)) (layer [] [] "" "").

(** * Properties *)

(** ** The operations on small inputs *)

Example slice_inside : slice [10; 11; 12; 13; 14]%nat 1 3 = [11; 12]%nat.
Proof. reflexivity. Qed.

Example slice_past_the_end : slice [10; 11; 12; 13; 14]%nat 3 27 = [13; 14]%nat.
Proof. reflexivity. Qed.

Example slice_beyond : slice [10; 11; 12; 13; 14]%nat 24 48 = @nil nat.
Proof. reflexivity. Qed.

Example slice_negative : slice [10; 11; 12; 13; 14]%nat (-2) 5 = [13; 14]%nat.
Proof. reflexivity. Qed.

Example add_same_length : add [1; 2]%Q [10; 20]%Q = inr [1 + 10; 2 + 20]%Q.
Proof. reflexivity. Qed.

Example add_other_length : add (np_zeros 3) [10; 20]%Q = inl (ValueError 3 2).
Proof. reflexivity. Qed.

Example title_of_second_day : title (ax second_day_on) = "Dispatch Plot - Day 2".
Proof. vm_compute. reflexivity. Qed.

Example colors_of_second_day :
  map band_color (bands (ax second_day_on)) =
  ["#FFD700"; "#ADD8E6"; "#ADD8E6"; "#FF4500"; "#FF0000"].
Proof. vm_compute. reflexivity. Qed.

Example day_before_the_first :
  create_dispatch_plot_body (sample 48) (-1) true = inl (ValueError 24 0).
Proof. vm_compute. reflexivity. Qed.

Example results_directory_missing :
  create_dispatch_plot {| dirs := ∅; files := ∅; stdout := [] |} (sample 24) 0 false
  = inl (FileNotFoundError "results/dispatch_plot.png").
Proof. vm_compute. reflexivity. Qed.

(** ** Inverting and running the operations *)

Lemma length_np_zeros n : length (np_zeros n) = n.
Proof. apply length_replicate. Qed.

Lemma length_range n : length (range n) = n.
Proof. apply length_seq. Qed.

Lemma add_inv a s y :
  add a s = inr y -> length a = length s ∧ y = zip_with Qplus a s.
Proof.
  unfold add, ok, raise. case_decide; intros Hy; [|discriminate].
  by inversion Hy.
Qed.

Lemma ok_inv {A} (a b : A) : ok a = inr b -> b = a.
Proof. unfold ok. congruence. Qed.

Lemma bind_inv {A B} (r : Result A) (k : A -> Result B) b :
  bind r k = inr b -> exists a, r = inr a ∧ k a = inr b.
Proof. destruct r as [e|a]; simpl; [discriminate|eauto]. Qed.

Lemma fill_between_inv a x y1 y2 lab col al a' :
  fill_between a x y1 y2 lab col al = inr a' ->
  length y1 = length x ∧ length y2 = length x ∧
  a' = {| bands := bands a ++ [{| band_x := x; band_y1 := y1; band_y2 := y2;
                         band_label := lab; band_color := col;
                         band_alpha := al |}];
            lines := lines a; xlabel := xlabel a; ylabel := ylabel a;
            title := title a; legend := legend a; grid := grid a |}.
Proof.
  unfold fill_between, ok, raise. repeat case_decide; intros Hy; try discriminate.
  by inversion Hy.
Qed.

Lemma plot_inv a x y lab col wd st a' :
  plot a x y lab col wd st = inr a' ->
  length y = length x ∧
  a' = {| bands := bands a;
          lines := lines a ++
                   [{| line_x := x; line_y := y; line_label := lab;
                       line_color := col; line_width := wd;
                       line_style := st |}];
          xlabel := xlabel a; ylabel := ylabel a;
          title := title a; legend := legend a; grid := grid a |}.
Proof.
  unfold plot, ok, raise. case_decide; intros Hy; try discriminate.
  by inversion Hy.
Qed.

Lemma color_inv key c :
  dict_getitem color_dict key = inr c -> color_dict !! key = Some c.
Proof.
  unfold dict_getitem, ok, raise.
  destruct (color_dict !! key); [|discriminate]. by inversion 1.
Qed.

(** Split the first operation off a run [H] that is known to succeed:
    it returned some [v], by the equation [E]. *)
Ltac step H :=
  let a := fresh "v" in let E := fresh "E" in
  apply bind_inv in H; destruct H as (a & E & H).

(** The same for a lookup in the colour table, whose result is computed. *)
Ltac color H :=
  let c := fresh "c" in let E := fresh "E" in
  apply bind_inv in H; destruct H as (c & E & H);
  apply color_inv in E; vm_compute in E; inversion E; subst c; clear E.

(** A column that was subscripted before, by [E], is subscripted again. *)
Ltac again H E := rewrite E in H; cbn [bind] in H.

(** A run of the body that completes has found the columns it reads, each
    of 24 values, and leaves exactly the drawing of section [Drawing]. *)
Lemma body_success data day flag l :
  create_dispatch_plot_body data day flag = inr l ->
  exists solar charge discharge lost load curt gen,
    getitem (day_slice data day) "Solar Production (kWh)" = inr solar ∧
    getitem (day_slice data day) "Battery Charge (kWh)" = inr charge ∧
    getitem (day_slice data day) "Battery Discharge (kWh)" = inr discharge ∧
    getitem (day_slice data day) "Lost Load (kWh)" = inr lost ∧
    getitem (day_slice data day) "Load (kWh)" = inr load ∧
    getitem (day_slice data day) "Curtailment (kWh)" = inr curt ∧
    (if flag
     then exists g, gen = Some g ∧ length g = 24%nat ∧
            getitem (day_slice data day) "Generator Production (kWh)" = inr g
     else gen = None) ∧
    length solar = 24%nat ∧ length charge = 24%nat ∧
    length discharge = 24%nat ∧ length lost = 24%nat ∧
    length load = 24%nat ∧ length curt = 24%nat ∧
    l = {| daily_data := day_slice data day;
           ax := drawn_axes solar charge discharge lost load curt gen day;
           cumulative_outflow := after_generator solar discharge gen;
           cumulative_inflow := after_charge charge |}.
Proof.
  unfold create_dispatch_plot_body. intros H. cbv zeta in H.
  change (iloc data _ _) with (day_slice data day) in H.
  step H. rename v into solar, E into Esolar.
  step H. apply add_inv in E as [Ls ->]. rewrite length_np_zeros in Ls.
  color H.
  step H. apply fill_between_inv in E as (_ & _ & ->).
  again H Esolar.
  step H. apply add_inv in E as [_ ->].
  step H. rename v into charge, E into Echarge.
  step H. apply add_inv in E as [Lc ->]. rewrite length_np_zeros in Lc.
  color H.
  step H. apply fill_between_inv in E as (_ & _ & ->).
  again H Echarge.
  step H. apply add_inv in E as [_ ->].
  step H. rename v into discharge, E into Edis.
  step H. apply add_inv in E as [Ld ->].
  rewrite length_zip_with, length_np_zeros, <- Ls in Ld.
  color H.
  step H. apply fill_between_inv in E as (_ & _ & ->).
  again H Edis.
  step H. apply add_inv in E as [_ ->].
  step H. rename v into st, E into Est.
  assert (Hst : length (snd st) = 24%nat ∧
    exists gen,
    (if flag
     then exists g, gen = Some g ∧ length g = 24%nat ∧
            getitem (day_slice data day) "Generator Production (kWh)" = inr g
     else gen = None) ∧
    st = ({| bands := [solar_band solar; charge_band charge;
                       discharge_band solar discharge]
                      ++ match gen with
                         | Some g => [generator_band solar discharge g]
                         | None => []
                         end;
             lines := []; xlabel := ""; ylabel := ""; title := "";
             legend := None; grid := false |},
          after_generator solar discharge gen)).
  { destruct flag.
    - step Est. rename v into g, E into Egen.
      step Est. apply add_inv in E as [Lg ->].
      rewrite !length_zip_with, length_np_zeros, <- Ls, <- Ld in Lg.
      color Est.
      step Est. apply fill_between_inv in E as (_ & _ & ->).
      again Est Egen.
      step Est. apply add_inv in E as [_ ->].
      apply ok_inv in Est. subst st. split.
      + cbn [snd]. rewrite !length_zip_with, length_np_zeros. lia.
      + exists (Some g). split; [exists g; by repeat split|done].
    - apply ok_inv in Est. subst st. split.
      + cbn [snd]. rewrite !length_zip_with, length_np_zeros. lia.
      + exists None. split; done. }
  clear Est. destruct Hst as (Lst & gen & Hgen & ->). cbn [fst snd] in *.
  step H. rename v into lost, E into Elost.
  step H. apply add_inv in E as [Ll ->]. rewrite Lst in Ll.
  color H.
  step H. apply fill_between_inv in E as (_ & _ & ->).
  step H. rename v into load, E into Eload.
  color H.
  step H. apply plot_inv in E as (Lo & ->). rewrite length_range in Lo.
  step H. rename v into curt, E into Ecurt.
  step H. apply add_inv in E as [Lk ->].
  step H. apply plot_inv in E as (_ & ->).
  apply ok_inv in H; subst l.
  exists solar, charge, discharge, lost, load, curt, gen.
  repeat split; try done; try lia.
Qed.

(** *** Slices and columns *)

Lemma slice_day {A} (l : list A) (day : Z) :
  0 <= day ->
  slice l (day * 24) (day * 24 + 24) =
  take 24 (drop (Z.to_nat (day * 24)) l).
Proof.
  intros Hd. unfold slice, slice_bound.
  destruct (Z.ltb_spec (day * 24) 0); [lia|].
  destruct (Z.ltb_spec (day * 24 + 24) 0); [lia|].
  set (n := length l).
  destruct (decide (Z.of_nat n <= day * 24)) as [Hle|Hgt].
  - rewrite !Z.min_r by lia. rewrite Z.sub_diag. simpl.
    rewrite !drop_ge by (subst n; lia). by rewrite take_nil.
  - rewrite (Z.min_l (day * 24)) by lia.
    destruct (decide (day * 24 + 24 <= Z.of_nat n)) as [Hfull|Hshort].
    + rewrite Z.min_l by lia. f_equal. lia.
    + rewrite Z.min_r by lia.
      rewrite !take_ge; [done| |]; rewrite length_drop; subst n; lia.
Qed.

Lemma length_slice_day {A} (l : list A) (day : Z) :
  0 <= day ->
  length (slice l (day * 24) (day * 24 + 24)) =
  (24 `min` (length l - Z.to_nat (day * 24)))%nat.
Proof.
  intros Hd. rewrite slice_day by done.
  by rewrite length_take, length_drop.
Qed.

Lemma lookup_slice_day {A} (l : list A) (day : Z) (h : nat) :
  0 <= day -> (h < 24)%nat ->
  slice l (day * 24) (day * 24 + 24) !! h = l !! (Z.to_nat (day * 24) + h)%nat.
Proof.
  intros Hd Hh. rewrite slice_day by done.
  rewrite lookup_take_lt by done. apply lookup_drop.
Qed.

Lemma find_column_iloc name df start stop :
  find_column name (columns (iloc df start stop)) =
  (fun s => slice s start stop) <$> find_column name (columns df).
Proof.
  unfold iloc. cbn [columns].
  induction (columns df) as [|[n s] cols IH]; [done|].
  cbn. by destruct (String.eqb n name).
Qed.

Lemma find_column_elem name cols s :
  find_column name cols = Some s -> (name, s) ∈ cols.
Proof.
  induction cols as [|[n c] cols IH]; [done|]. cbn.
  destruct (String.eqb_spec n name) as [->|Hne].
  - intros [= ->]. apply list_elem_of_here.
  - intros Hf. apply list_elem_of_further. auto.
Qed.

Lemma find_column_length df name s :
  frame_ok df -> find_column name (columns df) = Some s -> length s = nrows df.
Proof.
  intros Hok Hf. apply find_column_elem in Hf.
  unfold frame_ok in Hok. rewrite Forall_forall in Hok.
  by apply (Hok (name, s)).
Qed.

Lemma nrows_day_slice df day :
  0 <= day ->
  nrows (day_slice df day) = (24 `min` (nrows df - Z.to_nat (day * 24)))%nat.
Proof.
  intros Hd. unfold day_slice, iloc. cbn [nrows].
  by rewrite length_slice_day, length_seq.
Qed.

Lemma day_slice_ok df day : 0 <= day -> frame_ok df -> frame_ok (day_slice df day).
Proof.
  intros Hd Hok. unfold frame_ok. rewrite nrows_day_slice by done.
  unfold day_slice, iloc. cbn [columns].
  apply Forall_map. eapply Forall_impl; [exact Hok|].
  intros [n s] Hs. cbn in *. by rewrite length_slice_day, Hs.
Qed.

Lemma getitem_inr df name s :
  getitem df name = inr s <-> find_column name (columns df) = Some s.
Proof.
  unfold getitem, ok, raise. destruct (find_column name (columns df)); split; congruence.
Qed.

Lemma getitem_inl df name e :
  getitem df name = inl e <->
  e = KeyError name ∧ find_column name (columns df) = None.
Proof.
  unfold getitem, ok, raise. destruct (find_column name (columns df)).
  - split; [discriminate|]. intros [_ Hf]. discriminate.
  - split; [intros [= <-]; done|]. by intros [-> _].
Qed.

Lemma getitem_day_slice df day name :
  getitem (day_slice df day) name =
  match find_column name (columns df) with
  | Some s => ok (slice s (day * 24) (day * 24 + 24))
  | None => raise (KeyError name)
  end.
Proof.
  unfold getitem, day_slice. rewrite find_column_iloc.
  by destruct (find_column name (columns df)).
Qed.

Lemma cell_day_slice df day name h :
  0 <= day -> (h < 24)%nat ->
  cell (day_slice df day) name h = cell df name (Z.to_nat (day * 24) + h).
Proof.
  intros Hd Hh. unfold cell, day_slice. rewrite find_column_iloc.
  destruct (find_column name (columns df)); [|done]. cbn.
  by apply lookup_slice_day.
Qed.

Lemma cell_getitem df name s h :
  getitem df name = inr s -> cell df name h = s !! h.
Proof. rewrite getitem_inr. unfold cell. by intros ->. Qed.

(** *** Running the body forwards *)

Lemma add_ok a s :
  length a = length s -> add a s = inr (zip_with Qplus a s).
Proof. intros Hl. unfold add, ok. by rewrite decide_True. Qed.

Lemma add_short a s :
  length a ≠ length s -> add a s = inl (ValueError (length a) (length s)).
Proof. intros Hl. unfold add, raise. by rewrite decide_False. Qed.

Lemma fill_between_ok a x y1 y2 lab col al :
  length y1 = length x -> length y2 = length x ->
  fill_between a x y1 y2 lab col al =
  inr {| bands := bands a ++ [{| band_x := x; band_y1 := y1; band_y2 := y2;
                                 band_label := lab; band_color := col;
                                 band_alpha := al |}];
         lines := lines a; xlabel := xlabel a; ylabel := ylabel a;
         title := title a; legend := legend a; grid := grid a |}.
Proof. intros H1 H2. unfold fill_between, ok. by rewrite !decide_True. Qed.

Lemma plot_ok a x y lab col wd st :
  length y = length x ->
  plot a x y lab col wd st =
  inr {| bands := bands a;
         lines := lines a ++
                  [{| line_x := x; line_y := y; line_label := lab;
                      line_color := col; line_width := wd; line_style := st |}];
         xlabel := xlabel a; ylabel := ylabel a;
         title := title a; legend := legend a; grid := grid a |}.
Proof. intros H1. unfold plot, ok. by rewrite decide_True. Qed.

Lemma length_add a s : length a = length s -> length (zip_with Qplus a s) = length a.
Proof. intros Hl. rewrite length_zip_with. lia. Qed.

Lemma length_neg a : length (neg a) = length a.
Proof. apply length_map. Qed.

(** Solve a goal about the lengths of stacked 24-hour curves. *)
Ltac solve_lengths :=
  rewrite ?length_neg, ?length_zip_with, ?length_np_zeros, ?length_range; lia.

(** Evaluate every lookup in the colour table. *)
Ltac run_colors :=
  repeat match goal with
  | |- context [dict_getitem color_dict ?k] =>
      let v := eval vm_compute in (dict_getitem color_dict k) in
      change (dict_getitem color_dict k) with v
  end.

Lemma iadd_ok a s :
  length a = length s -> iadd a s = inr (zip_with Qplus a s).
Proof. apply add_ok. Qed.

Ltac run_iadd := rewrite iadd_ok; [cbn [bind] | solve_lengths ..].
Ltac run_add := rewrite add_ok; [cbn [bind] | solve_lengths ..].
Ltac run_band :=
  rewrite fill_between_ok;
  [cbn [bind bands lines xlabel ylabel title legend grid] | solve_lengths ..].
Ltac run_line :=
  rewrite plot_ok;
  [cbn [bind bands lines xlabel ylabel title legend grid] | solve_lengths ..].

(** Conversely, when the columns are there with 24 values each, the body
    completes with that drawing. *)
Lemma body_complete data day (flag : bool) solar charge discharge lost load curt gen :
  getitem (day_slice data day) "Solar Production (kWh)" = inr solar ->
  getitem (day_slice data day) "Battery Charge (kWh)" = inr charge ->
  getitem (day_slice data day) "Battery Discharge (kWh)" = inr discharge ->
  getitem (day_slice data day) "Lost Load (kWh)" = inr lost ->
  getitem (day_slice data day) "Load (kWh)" = inr load ->
  getitem (day_slice data day) "Curtailment (kWh)" = inr curt ->
  (if flag
   then exists g, gen = Some g ∧ length g = 24%nat ∧
          getitem (day_slice data day) "Generator Production (kWh)" = inr g
   else gen = None) ->
  length solar = 24%nat -> length charge = 24%nat ->
  length discharge = 24%nat -> length lost = 24%nat ->
  length load = 24%nat -> length curt = 24%nat ->
  create_dispatch_plot_body data day flag =
  inr {| daily_data := day_slice data day;
         ax := drawn_axes solar charge discharge lost load curt gen day;
         cumulative_outflow := after_generator solar discharge gen;
         cumulative_inflow := after_charge charge |}.
Proof.
  intros Es Ec Ed El Eo Ek Hgen Ls Lc Ld Ll Lo Lk.
  unfold create_dispatch_plot_body. cbv zeta.
  change (iloc data _ _) with (day_slice data day).
  rewrite Es, Ec, Ed, El, Eo, Ek. run_colors. cbn [bind].
  run_add. run_band. run_iadd.
  run_add. run_band. run_iadd.
  run_add. run_band. run_iadd.
  destruct flag.
  - destruct Hgen as (g & -> & Lg & Eg). rewrite Eg. cbn [bind].
    run_add. run_band. run_iadd. cbn [bind ok fst snd].
    run_add. run_band. run_line. run_add. run_line. done.
  - subst gen. cbn [bind ok fst snd].
    run_add. run_band. run_line. run_add. run_line. done.
Qed.

(** *** Complete days: the run succeeds or names the first missing column *)

Lemma length_full_slice df day name s :
  frame_ok df -> 0 <= day -> (day + 1) * 24 <= Z.of_nat (nrows df) ->
  find_column name (columns df) = Some s ->
  length (slice s (day * 24) (day * 24 + 24)) = 24%nat.
Proof.
  intros Hok Hd Hn Hf. rewrite length_slice_day by done.
  rewrite (find_column_length df name s) by done. lia.
Qed.

(** Subscript the day slice at the head of the goal: either the column
    is there, with its 24 values, or the goal is left with the raised
    [KeyError]. *)
Ltac run_get data day Hlen name s E :=
  rewrite (getitem_day_slice data day name);
  destruct (find_column name (columns data)) as [s|] eqn:E;
  [ pose proof (Hlen _ _ E); cbn [bind ok] | cbn [bind raise] ].

(** Read the first missing column off the lookups made so far. *)
Ltac first_missing_is H :=
  unfold first_missing, required_columns, has_column in H;
  cbn [List.find app] in H;
  repeat match goal with
  | E : find_column ?n _ = _ |- _ => rewrite E in H; clear E
  end;
  cbn [negb List.find app] in H.

Lemma body_full_day data day flag :
  frame_ok data -> 0 <= day -> (day + 1) * 24 <= Z.of_nat (nrows data) ->
  match first_missing data flag with
  | Some name => create_dispatch_plot_body data day flag = inl (KeyError name)
  | None => ∃ l, create_dispatch_plot_body data day flag = inr l
  end.
Proof.
  intros Hok Hd Hn.
  pose proof (fun name s => length_full_slice data day name s Hok Hd Hn) as Hlen.
  destruct (first_missing data flag) as [name|] eqn:Hfirst.
  - unfold create_dispatch_plot_body. cbv zeta.
    change (iloc data _ _) with (day_slice data day). run_colors.
    run_get data day Hlen "Solar Production (kWh)" solar Es;
      [|first_missing_is Hfirst; congruence].
    run_add. run_band. run_iadd.
    run_get data day Hlen "Battery Charge (kWh)" charge Ec;
      [|first_missing_is Hfirst; congruence].
    run_add. run_band. run_iadd.
    run_get data day Hlen "Battery Discharge (kWh)" discharge Ed;
      [|first_missing_is Hfirst; congruence].
    run_add. run_band. run_iadd.
    destruct flag.
    + run_get data day Hlen "Generator Production (kWh)" generator Eg;
        [|first_missing_is Hfirst; congruence].
      run_add. run_band.
      run_iadd. cbn [bind ok fst snd].
      run_get data day Hlen "Lost Load (kWh)" lost El;
        [|first_missing_is Hfirst; congruence].
      run_add. run_band.
      run_get data day Hlen "Load (kWh)" load Eo;
        [|first_missing_is Hfirst; congruence].
      run_line.
      run_get data day Hlen "Curtailment (kWh)" curt Ek;
        [|first_missing_is Hfirst; congruence].
      first_missing_is Hfirst. discriminate.
    + cbn [bind ok fst snd].
      run_get data day Hlen "Lost Load (kWh)" lost El;
        [|first_missing_is Hfirst; congruence].
      run_add. run_band.
      run_get data day Hlen "Load (kWh)" load Eo;
        [|first_missing_is Hfirst; congruence].
      run_line.
      run_get data day Hlen "Curtailment (kWh)" curt Ek;
        [|first_missing_is Hfirst; congruence].
      first_missing_is Hfirst. discriminate.
  - assert (Hall : ∀ name, In name (required_columns flag) ->
              ∃ s, getitem (day_slice data day) name = inr s ∧ length s = 24%nat).
    { intros name Hin. unfold first_missing in Hfirst.
      pose proof (find_none _ _ Hfirst name Hin) as Hneg.
      unfold has_column in Hneg. rewrite getitem_day_slice.
      destruct (find_column name (columns data)) as [s|] eqn:E; [|discriminate].
      eauto. }
    destruct (Hall "Solar Production (kWh)") as (solar & Es & Ls);
      [destruct flag; cbn; tauto|].
    destruct (Hall "Battery Charge (kWh)") as (charge & Ec & Lc);
      [destruct flag; cbn; tauto|].
    destruct (Hall "Battery Discharge (kWh)") as (discharge & Ed & Ld);
      [destruct flag; cbn; tauto|].
    destruct (Hall "Lost Load (kWh)") as (lost & El & Ll);
      [destruct flag; cbn; tauto|].
    destruct (Hall "Load (kWh)") as (load & Eo & Lo);
      [destruct flag; cbn; tauto|].
    destruct (Hall "Curtailment (kWh)") as (curt & Ek & Lk);
      [destruct flag; cbn; tauto|].
    destruct flag.
    + destruct (Hall "Generator Production (kWh)") as (g & Eg & Lg);
        [cbn; tauto|].
      eexists. apply (body_complete data day true solar charge discharge
                        lost load curt (Some g)); eauto.
    + eexists. by apply (body_complete data day false solar charge discharge
                           lost load curt None).
Qed.

(** *** Short days: the first band cannot be stacked *)

Lemma body_short_day data day flag :
  frame_ok data -> 0 <= day -> Z.of_nat (nrows data) < (day + 1) * 24 ->
  (nrows (day_slice data day) < 24)%nat ∧
  create_dispatch_plot_body data day flag =
  inl (if has_column data "Solar Production (kWh)"
       then ValueError 24 (nrows (day_slice data day))
       else KeyError "Solar Production (kWh)").
Proof.
  intros Hok Hd Hn.
  assert (Hrows : (nrows (day_slice data day) < 24)%nat).
  { rewrite nrows_day_slice by done. lia. }
  split; [done|].
  unfold create_dispatch_plot_body. cbv zeta.
  change (iloc data _ _) with (day_slice data day).
  unfold has_column. rewrite getitem_day_slice.
  destruct (find_column "Solar Production (kWh)" (columns data)) as [s|] eqn:Es;
    [|done].
  cbn [bind ok].
  assert (Hlen : length (slice s (day * 24) (day * 24 + 24)) =
                 nrows (day_slice data day)).
  { rewrite length_slice_day, nrows_day_slice by done.
    by rewrite (find_column_length data _ s Hok Es). }
  rewrite add_short by (rewrite length_np_zeros, Hlen; lia).
  cbn [bind]. by rewrite length_np_zeros, Hlen.
Qed.

(** *** Saving and printing *)

Lemma create_dispatch_plot_fails w data day flag e :
  create_dispatch_plot_body data day flag = inl e ->
  create_dispatch_plot w data day flag = inl e.
Proof. intros Hb. unfold create_dispatch_plot. by rewrite Hb. Qed.

Lemma create_dispatch_plot_success w data day flag w' :
  create_dispatch_plot w data day flag = inr w' ->
  ∃ l w1,
    create_dispatch_plot_body data day flag = inr l ∧
    savefig w output_path
      {| figsize := (12, 8)%nat; fig_axes := ax l; tight_layout := true |} = inr w1 ∧
    w' = print w1 confirmation.
Proof.
  unfold create_dispatch_plot. intros H.
  step H. rename v into l. step H. rename v into w1.
  apply ok_inv in H. eauto.
Qed.

Lemma savefig_inv w path fig w1 :
  savefig w path fig = inr w1 ->
  (dirname path = "" ∨ dirname path ∈ dirs w) ∧
  w1 = {| dirs := dirs w; files := <[path := fig]> (files w); stdout := stdout w |}.
Proof.
  unfold savefig, ok, raise. case_decide as Hdir; [|discriminate].
  by intros [= <-].
Qed.

(** *** Curves hour by hour *)

Lemma value_at_exact ys h y : ys !! h = Some y -> value_at ys h y.
Proof. intros Hy. exists y. split; [done|reflexivity]. Qed.

Lemma value_at_eq ys h v v' : value_at ys h v -> (v == v')%Q -> value_at ys h v'.
Proof. intros (y & Hy & Hv) Heq. exists y. split; [done|]. by rewrite Hv. Qed.

Lemma value_at_fun ys h v v' : value_at ys h v -> value_at ys h v' -> (v == v')%Q.
Proof.
  intros (y & Hy & Hv) (y' & Hy' & Hv'). rewrite Hy in Hy'.
  injection Hy' as <-. by rewrite <- Hv, <- Hv'.
Qed.

Lemma value_at_zeros n h : (h < n)%nat -> value_at (np_zeros n) h 0.
Proof.
  intros Hh. apply value_at_exact. unfold np_zeros.
  by apply lookup_replicate_2.
Qed.

Lemma value_at_plus a b h x y :
  value_at a h x -> value_at b h y -> value_at (zip_with Qplus a b) h (x + y).
Proof.
  intros (x' & Hx & Ex) (y' & Hy & Ey). exists (x' + y')%Q. split.
  - rewrite lookup_zip_with, Hx, Hy. done.
  - by rewrite Ex, Ey.
Qed.

Lemma value_at_neg a h x : value_at a h x -> value_at (neg a) h (- x).
Proof.
  intros (x' & Hx & Ex). exists (- x')%Q. split.
  - unfold neg. rewrite list_lookup_fmap_Some. eauto.
  - by rewrite Ex.
Qed.

Lemma column_value (s : Series) h :
  length s = 24%nat -> (h < 24)%nat -> ∃ v, s !! h = Some v.
Proof. intros Hl Hh. apply lookup_lt_is_Some. lia. Qed.

(** ** The stack of bands *)

(** What a successful run knows about hour [h]: the values of the day
    and the curves built from them. *)
Lemma hour_facts data day flag l h :
  create_dispatch_plot_body data day flag = inr l -> (h < 24)%nat ->
  ∃ solar charge discharge lost load curt gen (s c d x o k : Q),
    daily_data l = day_slice data day ∧
    ax l = drawn_axes solar charge discharge lost load curt gen day ∧
    cumulative_outflow l = after_generator solar discharge gen ∧
    cumulative_inflow l = after_charge charge ∧
    (if flag
     then ∃ g, gen = Some g ∧ length g = 24%nat ∧
            getitem (day_slice data day) "Generator Production (kWh)" = inr g
     else gen = None) ∧
    solar !! h = Some s ∧ charge !! h = Some c ∧ discharge !! h = Some d ∧
    lost !! h = Some x ∧ load !! h = Some o ∧ curt !! h = Some k ∧
    cell (day_slice data day) "Solar Production (kWh)" h = Some s ∧
    cell (day_slice data day) "Battery Charge (kWh)" h = Some c ∧
    cell (day_slice data day) "Battery Discharge (kWh)" h = Some d ∧
    cell (day_slice data day) "Lost Load (kWh)" h = Some x ∧
    cell (day_slice data day) "Load (kWh)" h = Some o ∧
    cell (day_slice data day) "Curtailment (kWh)" h = Some k.
Proof.
  intros Hrun Hh.
  destruct (body_success _ _ _ _ Hrun)
    as (solar & charge & discharge & lost & load & curt & gen &
        Es & Ec & Ed & El & Eo & Ek & Hgen & Ls & Lc & Ld & Ll & Lo & Lk & ->).
  destruct (column_value solar h Ls Hh) as [s Hs].
  destruct (column_value charge h Lc Hh) as [c Hc].
  destruct (column_value discharge h Ld Hh) as [d Hd].
  destruct (column_value lost h Ll Hh) as [x Hx].
  destruct (column_value load h Lo Hh) as [o Ho].
  destruct (column_value curt h Lk Hh) as [k Hk].
  exists solar, charge, discharge, lost, load, curt, gen, s, c, d, x, o, k.
  cbn [daily_data ax cumulative_outflow cumulative_inflow].
  rewrite (cell_getitem _ _ _ h Es), (cell_getitem _ _ _ h Ec),
    (cell_getitem _ _ _ h Ed), (cell_getitem _ _ _ h El),
    (cell_getitem _ _ _ h Eo), (cell_getitem _ _ _ h Ek).
  repeat split; done.
Qed.

Lemma value_after_solar solar h s :
  (h < 24)%nat -> solar !! h = Some s -> value_at (after_solar solar) h s.
Proof.
  intros Hh Hs. unfold after_solar.
  eapply value_at_eq.
  - apply value_at_plus; [by apply value_at_zeros|by apply value_at_exact].
  - ring.
Qed.

Lemma value_after_charge charge h c :
  (h < 24)%nat -> charge !! h = Some c -> value_at (after_charge charge) h c.
Proof.
  intros Hh Hc. unfold after_charge.
  eapply value_at_eq.
  - apply value_at_plus; [by apply value_at_zeros|by apply value_at_exact].
  - ring.
Qed.

Lemma value_after_discharge solar discharge h s d :
  (h < 24)%nat -> solar !! h = Some s -> discharge !! h = Some d ->
  value_at (after_discharge solar discharge) h (s + d).
Proof.
  intros Hh Hs Hd. unfold after_discharge.
  apply value_at_plus; [by apply value_after_solar|by apply value_at_exact].
Qed.

(** C1, as amended.  For every hour of the day slice of a successful
    run: each outflow layer (Solar, Battery Discharge, Generator when
    it is included, Lost Load) is a band from the running outflow total
    to that total plus the layer's value, and the Battery Charge band is
    the mirror image on the running inflow total.  The outflow total is
    advanced after Solar, Battery Discharge and Generator, not after Lost
    Load: when all layers are drawn, [cumulative_outflow] is
    Solar + Battery Discharge (+ Generator), and it is the upper edge of
    the Lost Load band, the top of the stack, that equals
    Solar + Battery Discharge (+ Generator) + Lost Load. *)
Theorem stack_is_additive data day flag l h :
  create_dispatch_plot_body data day flag = inr l ->
  (h < 24)%nat ->
  ∃ (s c d g x : Q) (b_solar b_charge b_discharge b_lost : Band),
    cell (daily_data l) "Solar Production (kWh)" h = Some s ∧
    cell (daily_data l) "Battery Charge (kWh)" h = Some c ∧
    cell (daily_data l) "Battery Discharge (kWh)" h = Some d ∧
    cell (daily_data l) "Lost Load (kWh)" h = Some x ∧
    (if flag
     then cell (daily_data l) "Generator Production (kWh)" h = Some g
     else g = 0%Q) ∧
    band_of (ax l) "Solar Production" = Some b_solar ∧
    band_at b_solar h 0 (0 + s) ∧
    band_of (ax l) "Battery Charging" = Some b_charge ∧
    band_at b_charge h (- 0) (- (0 + c)) ∧
    band_of (ax l) "Battery Discharging" = Some b_discharge ∧
    band_at b_discharge h s (s + d) ∧
    (if flag
     then ∃ b_gen, band_of (ax l) "Generator" = Some b_gen ∧
            band_at b_gen h (s + d) (s + d + g)
     else band_of (ax l) "Generator" = None) ∧
    band_of (ax l) "Lost Load" = Some b_lost ∧
    band_at b_lost h (s + d + g) (s + d + g + x) ∧
    value_at (cumulative_outflow l) h (s + d + g) ∧
    value_at (cumulative_inflow l) h c.
Proof.
  intros Hrun Hh.
  destruct (hour_facts _ _ _ _ h Hrun Hh)
    as (solar & charge & discharge & lost & load & curt & gen &
        s & c & d & x & o & k & -> & -> & -> & -> & Hgen &
        Hs & Hc & Hd & Hx & Ho & Hk & Cs & Cc & Cd & Cx & Co & Ck).
  pose proof (value_at_zeros 24 h Hh) as Hzero.
  pose proof (value_after_solar solar h s Hh Hs) as Hout1.
  pose proof (value_after_discharge solar discharge h s d Hh Hs Hd) as Hout2.
  destruct flag.
  - destruct Hgen as (g & -> & Lg & Eg).
    destruct (column_value g h Lg Hh) as [gv Hg].
    assert (Hout3 : value_at (after_generator solar discharge (Some g)) h (s + d + gv)).
    { cbn [after_generator]. apply value_at_plus; [done|by apply value_at_exact]. }
    exists s, c, d, gv, x.
    exists (solar_band solar), (charge_band charge),
      (discharge_band solar discharge), (lost_band solar discharge lost (Some g)).
    rewrite (cell_getitem _ _ _ h Eg).
    repeat split; try done.
    + apply value_at_plus; [done|by apply value_at_exact].
    + apply value_at_neg, value_at_plus; [done|by apply value_at_exact].
    + exists (generator_band solar discharge g). repeat split; try done.
    + apply value_at_plus; [done|by apply value_at_exact].
    + by apply value_after_charge.
  - subst gen.
    assert (Hout3 : value_at (after_generator solar discharge None) h (s + d + 0)).
    { cbn [after_generator]. eapply value_at_eq; [done|ring]. }
    exists s, c, d, 0%Q, x.
    exists (solar_band solar), (charge_band charge),
      (discharge_band solar discharge), (lost_band solar discharge lost None).
    repeat split; try done.
    + apply value_at_plus; [done|by apply value_at_exact].
    + apply value_at_neg, value_at_plus; [done|by apply value_at_exact].
    + apply value_at_plus; [done|by apply value_at_exact].
    + by apply value_after_charge.
Qed.

Lemma stack_is_additive_witness :
  create_dispatch_plot_body (sample 48) 1 true = inr second_day_on ∧
  (3 < 24)%nat ∧
  value_at (cumulative_outflow second_day_on) 3 (271 + 273 + 274).
Proof.
  assert (Hrun : create_dispatch_plot_body (sample 48) 1 true = inr second_day_on)
    by (vm_compute; reflexivity).
  assert (Hh : (3 < 24)%nat) by lia.
  split; [exact Hrun|]. split; [exact Hh|].
  destruct (stack_is_additive _ _ _ _ _ Hrun Hh)
    as (s & c & d & g & x & b1 & b2 & b3 & b4 &
        Cs & Cc & Cd & Cx & Cg & _ & _ & _ & _ & _ & _ & _ & _ & _ & Hout & _).
  vm_compute in Cs, Cd, Cg.
  injection Cs as <-. injection Cd as <-. injection Cg as <-.
  exact Hout.
Defined.

(** C1 as stated fails: with the generator drawn and a lost load of 6 in
    the first hour, [cumulative_outflow] ends at 1 + 3 + 4 = 8 there, not
    at 1 + 3 + 4 + 6. *)
Lemma final_outflow_omits_lost_load :
  create_dispatch_plot_body (sample 24) 0 true = inr first_day_on ∧
  cell (daily_data first_day_on) "Solar Production (kWh)" 0 = Some 1%Q ∧
  cell (daily_data first_day_on) "Battery Discharge (kWh)" 0 = Some 3%Q ∧
  cell (daily_data first_day_on) "Generator Production (kWh)" 0 = Some 4%Q ∧
  cell (daily_data first_day_on) "Lost Load (kWh)" 0 = Some 6%Q ∧
  cumulative_outflow first_day_on !! 0%nat = Some 8%Q ∧
  ¬ value_at (cumulative_outflow first_day_on) 0 (1 + 3 + 4 + 6).
Proof.
  do 6 (split; [vm_compute; reflexivity|]).
  intros (y & Hy & Heq). vm_compute in Hy. injection Hy as <-.
  vm_compute in Heq. discriminate.
Qed.

(** C5.  A successful run draws the bands in the order Solar, Battery
    Charge, Battery Discharge, Generator (only with [has_generator]),
    Lost Load.  The Battery Charge band starts at the negated inflow
    total of that moment (zero) and ends at the negated total advanced by
    the charge, so it hangs below the axis wherever the charge is not
    negative. *)
Theorem layers_in_fixed_order data day flag l :
  create_dispatch_plot_body data day flag = inr l ->
  map band_label (bands (ax l)) =
    ["Solar Production"; "Battery Charging"; "Battery Discharging"]
    ++ (if flag then ["Generator"] else []) ++ ["Lost Load"] ∧
  ∃ b_charge,
    bands (ax l) !! 1%nat = Some b_charge ∧
    band_label b_charge = "Battery Charging" ∧
    band_y1 b_charge = neg (np_zeros 24) ∧
    band_y2 b_charge = neg (cumulative_inflow l) ∧
    ∀ h, (h < 24)%nat ->
      ∃ c lo hi,
        cell (daily_data l) "Battery Charge (kWh)" h = Some c ∧
        band_y1 b_charge !! h = Some lo ∧ (lo == 0)%Q ∧
        band_y2 b_charge !! h = Some hi ∧ (hi == - c)%Q ∧
        (0 <= c -> hi <= 0)%Q.
Proof.
  intros Hrun.
  destruct (body_success _ _ _ _ Hrun)
    as (solar & charge & discharge & lost & load & curt & gen &
        Es & Ec & Ed & El & Eo & Ek & Hgen & Ls & Lc & Ld & Ll & Lo & Lk & ->).
  cbn [ax daily_data cumulative_inflow drawn_axes bands]. split.
  - unfold drawn_bands. destruct flag.
    + by destruct Hgen as (g & -> & _).
    + by subst gen.
  - exists (charge_band charge). repeat split.
    intros h Hh.
    destruct (column_value charge h Lc Hh) as [c Hc].
    destruct (value_at_neg _ h 0 (value_at_zeros 24 h Hh)) as (lo & Hlo & Elo).
    destruct (value_at_neg _ h c (value_after_charge charge h c Hh Hc))
      as (hi & Hhi & Ehi).
    exists c, lo, hi. rewrite (cell_getitem _ _ _ h Ec).
    repeat split; try done.
    intros Hpos. apply (Qopp_le_compat 0 c) in Hpos.
    apply (Qle_trans _ (- c)); [|exact Hpos].
    apply Qle_lteq. right. exact Ehi.
Qed.

Lemma layers_in_fixed_order_witness :
  create_dispatch_plot_body (sample 48) 1 true = inr second_day_on ∧
  map band_label (bands (ax second_day_on)) =
    ["Solar Production"; "Battery Charging"; "Battery Discharging";
     "Generator"; "Lost Load"].
Proof.
  assert (Hrun : create_dispatch_plot_body (sample 48) 1 true = inr second_day_on)
    by (vm_compute; reflexivity).
  split; [exact Hrun|].
  exact (proj1 (layers_in_fixed_order _ _ _ _ Hrun)).
Defined.

(** C6, as amended.  On one input, the run that draws the generator and
    the run that does not both complete, the second without a Generator
    band, and at every hour the final outflow total of the first is the
    total of the second with the Generator Production of that hour
    added to it, by the one further addition the code makes.  This is
    an equation between the values as computed; it does not depend on
    the arithmetic, and the same holds of the totals computed on
    float64 columns.  (That the difference of the two totals gives the
    Generator Production back is true up to the rounding of that
    addition only.) *)
Theorem generator_flag_changes_totals_by_generator data day l_on h :
  create_dispatch_plot_body data day true = inr l_on ->
  (h < 24)%nat ->
  (∃ l_off (g t_on t_off : Q),
     create_dispatch_plot_body data day false = inr l_off ∧
     cell (day_slice data day) "Generator Production (kWh)" h = Some g ∧
     cumulative_outflow l_on !! h = Some t_on ∧
     cumulative_outflow l_off !! h = Some t_off ∧
     t_on = (t_off + g)%Q ∧
     is_Some (band_of (ax l_on) "Generator") ∧
     band_of (ax l_off) "Generator" = None) ∧
  (∀ solar discharge generator,
     cumulative_outflow_float64 solar discharge generator true =
     zip_with PrimFloat.add
       (cumulative_outflow_float64 solar discharge generator false) generator).
Proof.
  intros Hrun Hh. split; [|done].
  destruct (body_success _ _ _ _ Hrun)
    as (solar & charge & discharge & lost & load & curt & gen &
        Es & Ec & Ed & El & Eo & Ek & (g & -> & Lg & Eg) &
        Ls & Lc & Ld & Ll & Lo & Lk & ->).
  pose proof (body_complete data day false solar charge discharge lost load
                curt None Es Ec Ed El Eo Ek eq_refl Ls Lc Ld Ll Lo Lk) as Hoff.
  destruct (column_value solar h Ls Hh) as [s Hs].
  destruct (column_value discharge h Ld Hh) as [d Hd].
  destruct (column_value g h Lg Hh) as [gv Hg].
  destruct (value_after_discharge solar discharge h s d Hh Hs Hd)
    as (t_off & Hoff_t & Eoff).
  eexists _, gv, (t_off + gv)%Q, t_off. split; [exact Hoff|].
  cbn [cumulative_outflow ax after_generator].
  rewrite (cell_getitem _ _ _ h Eg).
  repeat split; try done.
  by rewrite lookup_zip_with, Hoff_t, Hg.
Qed.

Lemma generator_flag_changes_totals_by_generator_witness :
  create_dispatch_plot_body (sample 48) 1 true = inr second_day_on ∧
  (3 < 24)%nat ∧
  ∃ l_off t_on t_off,
    create_dispatch_plot_body (sample 48) 1 false = inr l_off ∧
    cumulative_outflow second_day_on !! 3%nat = Some t_on ∧
    cumulative_outflow l_off !! 3%nat = Some t_off ∧
    t_on = (t_off + 274)%Q.
Proof.
  assert (Hrun : create_dispatch_plot_body (sample 48) 1 true = inr second_day_on)
    by (vm_compute; reflexivity).
  assert (Hh : (3 < 24)%nat) by lia.
  split; [exact Hrun|]. split; [exact Hh|].
  destruct (generator_flag_changes_totals_by_generator _ _ _ _ Hrun Hh)
    as [(l_off & g & t_on & t_off & Hoff & Cg & Hon & Ht & Hsum & _) _].
  vm_compute in Cg. injection Cg as <-.
  exists l_off, t_on, t_off. repeat split; assumption.
Defined.

(** C6 as stated fails on float64 columns: with 0.1 of solar, 0.2 of
    discharge and 0.3 of generator production in an hour the totals are
    0.6000000000000001 with the generator and 0.30000000000000004
    without, and their difference is 0.30000000000000004, not the 0.3 of
    the Generator Production column. *)
Lemma generator_difference_is_rounded :
  cumulative_outflow_float64 day_of_tenths day_of_fifths day_of_three_tenths true
    !! 0%nat = Some 0x1.3333333333334p-1%float ∧
  cumulative_outflow_float64 day_of_tenths day_of_fifths day_of_three_tenths false
    !! 0%nat = Some 0x1.3333333333334p-2%float ∧
  day_of_three_tenths !! 0%nat = Some 0x1.3333333333333p-2%float ∧
  PrimFloat.sub 0x1.3333333333334p-1 0x1.3333333333334p-2 =
    0x1.3333333333334p-2%float ∧
  PrimFloat.eqb (PrimFloat.sub 0x1.3333333333334p-1 0x1.3333333333334p-2)
                0x1.3333333333333p-2 = false.
Proof.
  repeat (split; [vm_compute; reflexivity|]). vm_compute. reflexivity.
Qed.




(** C9.  The two running totals never meet.  The final inflow total is
    the Battery Charge column added to zero, and is the same for two
    days that agree on that column whatever their other columns hold;
    the final outflow total is the same for two days that agree on Solar
    Production, Battery Discharge and (when it is drawn) Generator
    Production, whatever their Battery Charge column holds. *)
Theorem totals_are_independent data1 data2 day flag l1 l2 :
  create_dispatch_plot_body data1 day flag = inr l1 ->
  create_dispatch_plot_body data2 day flag = inr l2 ->
  (∃ charge, getitem (daily_data l1) "Battery Charge (kWh)" = inr charge ∧
             cumulative_inflow l1 = zip_with Qplus (np_zeros 24) charge) ∧
  (getitem (daily_data l1) "Battery Charge (kWh)" =
   getitem (daily_data l2) "Battery Charge (kWh)" ->
   cumulative_inflow l1 = cumulative_inflow l2) ∧
  (getitem (daily_data l1) "Solar Production (kWh)" =
   getitem (daily_data l2) "Solar Production (kWh)" ->
   getitem (daily_data l1) "Battery Discharge (kWh)" =
   getitem (daily_data l2) "Battery Discharge (kWh)" ->
   (flag = true ->
    getitem (daily_data l1) "Generator Production (kWh)" =
    getitem (daily_data l2) "Generator Production (kWh)") ->
   cumulative_outflow l1 = cumulative_outflow l2).
Proof.
  intros Hrun1 Hrun2.
  destruct (body_success _ _ _ _ Hrun1)
    as (solar1 & charge1 & discharge1 & lost1 & load1 & curt1 & gen1 &
        Es1 & Ec1 & Ed1 & _ & _ & _ & Hgen1 & _ & _ & _ & _ & _ & _ & ->).
  destruct (body_success _ _ _ _ Hrun2)
    as (solar2 & charge2 & discharge2 & lost2 & load2 & curt2 & gen2 &
        Es2 & Ec2 & Ed2 & _ & _ & _ & Hgen2 & _ & _ & _ & _ & _ & _ & ->).
  cbn [daily_data cumulative_inflow cumulative_outflow].
  rewrite Es1, Es2, Ec1, Ec2, Ed1, Ed2.
  split; [by exists charge1|]. split.
  - by intros [= ->].
  - intros [= ->] [= ->] Hg. destruct flag.
    + destruct Hgen1 as (g1 & -> & _ & Eg1). destruct Hgen2 as (g2 & -> & _ & Eg2).
      specialize (Hg eq_refl). rewrite Eg1, Eg2 in Hg. by injection Hg as ->.
    + by subst gen1 gen2.
Qed.

Lemma totals_are_independent_witness :
  create_dispatch_plot_body (sample 48) 1 true = inr second_day_on ∧
  create_dispatch_plot_body recharged 1 true = inr second_day_recharged ∧
  cumulative_inflow second_day_on ≠ cumulative_inflow second_day_recharged ∧
  cumulative_outflow second_day_on = cumulative_outflow second_day_recharged.
Proof.
  assert (Hrun1 : create_dispatch_plot_body (sample 48) 1 true = inr second_day_on)
    by (vm_compute; reflexivity).
  assert (Hrun2 : create_dispatch_plot_body recharged 1 true = inr second_day_recharged)
    by (vm_compute; reflexivity).
  split; [exact Hrun1|]. split; [exact Hrun2|]. split.
  - intros Heq. vm_compute in Heq. discriminate.
  - apply (totals_are_independent _ _ _ _ _ _ Hrun1 Hrun2).
    + vm_compute; reflexivity.
    + vm_compute; reflexivity.
    + intros _. vm_compute; reflexivity.
Defined.

(** ** The day slice *)

(** C4.  For a frame of whole days that holds day [day] completely, the
    slice the function works on has 24 rows, and its row [h] is row
    [24 * day + h] of the frame, in every column; a run that completes
    has drawn from this slice.  When the frame has the columns the run
    reads, under unique labels, the run does complete, and what it
    plots are those rows: the load curve is the Load column from row
    [24 * day] to row [24 * day + 23], and the Solar band reaches up to
    the Solar Production of the same rows.  (That the row count is a
    multiple of 24 is not needed.) *)
Theorem day_slice_selects_rows data day (k : nat) :
  frame_ok data -> 0 <= day ->
  nrows data = (24 * k)%nat ->
  (day + 1) * 24 <= Z.of_nat (nrows data) ->
  nrows (day_slice data day) = 24%nat ∧
  frame_ok (day_slice data day) ∧
  (∀ name h, (h < 24)%nat ->
     cell (day_slice data day) name h = cell data name (24 * Z.to_nat day + h)) ∧
  (∀ name, has_column (day_slice data day) name = has_column data name) ∧
  (∀ flag l, create_dispatch_plot_body data day flag = inr l ->
     daily_data l = iloc data (24 * day) (24 * day + 24)) ∧
  (∀ flag, unique_labels data -> first_missing data flag = None ->
     ∃ l c_load b_solar,
       create_dispatch_plot_body data day flag = inr l ∧
       daily_data l = iloc data (24 * day) (24 * day + 24) ∧
       line_of (ax l) "Load" = Some c_load ∧
       band_of (ax l) "Solar Production" = Some b_solar ∧
       ∀ h, (h < 24)%nat ->
         line_y c_load !! h = cell data "Load (kWh)" (24 * Z.to_nat day + h) ∧
         ∃ s, cell data "Solar Production (kWh)" (24 * Z.to_nat day + h) = Some s ∧
              value_at (band_y2 b_solar) h s).
Proof.
  intros Hok Hd Hk Hn.
  assert (Hcell : ∀ name h, (h < 24)%nat ->
            cell (day_slice data day) name h
            = cell data name (24 * Z.to_nat day + h)).
  { intros name h Hh. rewrite cell_day_slice by done. f_equal. lia. }
  assert (Hslice : day_slice data day = iloc data (24 * day) (24 * day + 24)).
  { unfold day_slice. f_equal; lia. }
  split; [rewrite nrows_day_slice by done; lia|].
  split; [by apply day_slice_ok|].
  split; [exact Hcell|].
  split.
  { intros name. unfold has_column, day_slice. rewrite find_column_iloc.
    by destruct (find_column name (columns data)). }
  split.
  { intros flag l Hrun.
    destruct (body_success _ _ _ _ Hrun)
      as (? & ? & ? & ? & ? & ? & ? & _ & _ & _ & _ & _ & _ & _ &
          _ & _ & _ & _ & _ & _ & ->).
    exact Hslice. }
  intros flag _ Hcols.
  pose proof (body_full_day data day flag Hok Hd Hn) as Hrun.
  rewrite Hcols in Hrun. destruct Hrun as [l Hrun].
  destruct (body_success _ _ _ _ Hrun)
    as (solar & charge & discharge & lost & load & curt & gen &
        Es & _ & _ & _ & Eo & _ & _ & Ls & _ & _ & _ & _ & _ & Hl).
  exists l, (load_line load), (solar_band solar).
  split; [exact Hrun|]. rewrite Hl. cbn [daily_data ax].
  split; [exact Hslice|]. split; [done|]. split; [done|].
  intros h Hh. split.
  - cbn [load_line line_y].
    by rewrite <- Hcell, (cell_getitem _ _ _ h Eo).
  - destruct (column_value solar h Ls Hh) as [s Hs]. exists s. split.
    + by rewrite <- Hcell, (cell_getitem _ _ _ h Es).
    + by apply value_after_solar.
Qed.

Lemma day_slice_selects_rows_witness :
  frame_ok (sample 48) ∧ 0 <= 1 ∧ nrows (sample 48) = (24 * 2)%nat ∧
  (1 + 1) * 24 <= Z.of_nat (nrows (sample 48)) ∧
  nrows (day_slice (sample 48) 1) = 24%nat ∧
  cell (day_slice (sample 48) 1) "Load (kWh)" 3 = cell (sample 48) "Load (kWh)" 27 ∧
  ∃ l c_load,
    create_dispatch_plot_body (sample 48) 1 true = inr l ∧
    line_of (ax l) "Load" = Some c_load ∧
    line_y c_load !! 3%nat = Some 277%Q.
Proof.
  assert (Hok : frame_ok (sample 48)).
  { unfold frame_ok. cbn [sample columns nrows].
    repeat (apply List.Forall_cons; [vm_compute; reflexivity|]).
    apply List.Forall_nil. }
  assert (Hd : 0 <= 1) by lia.
  assert (Hk : nrows (sample 48) = (24 * 2)%nat) by reflexivity.
  assert (Hn : (1 + 1) * 24 <= Z.of_nat (nrows (sample 48))) by (cbn; lia).
  assert (Hlabels : unique_labels (sample 48)).
  { unfold unique_labels. apply (bool_decide_unpack _). vm_compute. reflexivity. }
  assert (Hcols : first_missing (sample 48) true = None)
    by (vm_compute; reflexivity).
  destruct (day_slice_selects_rows (sample 48) 1 2 Hok Hd Hk Hn)
    as (Hrows & _ & Hcell & _ & _ & Hplot).
  split; [exact Hok|]. split; [exact Hd|]. split; [exact Hk|].
  split; [exact Hn|]. split; [exact Hrows|].
  split; [apply (Hcell "Load (kWh)" 3%nat); lia|].
  destruct (Hplot true Hlabels Hcols)
    as (l & c_load & b_solar & Hrun & _ & Hline & _ & Hvalues).
  exists l, c_load. split; [exact Hrun|]. split; [exact Hline|].
  destruct (Hvalues 3%nat ltac:(lia)) as [Hload _].
  rewrite Hload. vm_compute. reflexivity.
Defined.

(** ** Failures *)

(** C2, as amended.  When the frame has fewer than [(day + 1) * 24] rows
    the slice is silently cut short (slicing itself never fails) and the
    call fails while the first band is built: with the [ValueError] of
    adding 24 zeros to the shorter Solar Production column, or, when that
    column is absent, with the [KeyError] of its lookup. *)
Theorem short_series_fails w data day flag :
  frame_ok data -> 0 <= day ->
  Z.of_nat (nrows data) < (day + 1) * 24 ->
  (nrows (day_slice data day) < 24)%nat ∧
  create_dispatch_plot w data day flag =
  inl (if has_column data "Solar Production (kWh)"
       then ValueError 24 (nrows (day_slice data day))
       else KeyError "Solar Production (kWh)").
Proof.
  intros Hok Hd Hn.
  destruct (body_short_day data day flag Hok Hd Hn) as [Hrows Hfail].
  split; [exact Hrows|].
  by apply create_dispatch_plot_fails.
Qed.

Lemma sample_ok n : frame_ok (sample n).
Proof.
  unfold frame_ok. cbn [sample columns nrows].
  repeat (apply List.Forall_cons;
          [cbn [snd]; unfold ramp; by rewrite length_map, length_seq|]).
  apply List.Forall_nil.
Qed.

Lemma short_series_fails_witness :
  frame_ok (sample 30) ∧ 0 <= 1 ∧ Z.of_nat (nrows (sample 30)) < (1 + 1) * 24 ∧
  create_dispatch_plot sample_world (sample 30) 1 true = inl (ValueError 24 6).
Proof.
  assert (Hok : frame_ok (sample 30)) by apply sample_ok.
  assert (Hd : 0 <= 1) by lia.
  assert (Hn : Z.of_nat (nrows (sample 30)) < (1 + 1) * 24) by (cbn; lia).
  split; [exact Hok|]. split; [exact Hd|]. split; [exact Hn|].
  exact (proj2 (short_series_fails sample_world (sample 30) 1 true Hok Hd Hn)).
Defined.

(** C2 as stated fails: a frame of ten rows asked for its first day is
    rejected with a [ValueError] about the lengths 24 and 10, which is
    not the out-of-range error [IndexError]; without its Solar Production
    column the same frame is rejected with a [KeyError]. *)
Lemma short_series_error_is_not_out_of_range :
  Z.of_nat (nrows (sample 10)) < (0 + 1) * 24 ∧
  create_dispatch_plot sample_world (sample 10) 0 false = inl (ValueError 24 10) ∧
  create_dispatch_plot sample_world (sample 10) 0 false ≠ inl IndexError ∧
  create_dispatch_plot sample_world
    (without "Solar Production (kWh)" (sample 10)) 0 false =
  inl (KeyError "Solar Production (kWh)").
Proof.
  split; [cbn; lia|].
  split; [vm_compute; reflexivity|].
  split; [vm_compute; discriminate|].
  vm_compute; reflexivity.
Qed.

Lemma first_missing_Some data flag name :
  first_missing data flag = Some name ->
  In name (required_columns flag) ∧ has_column data name = false.
Proof.
  unfold first_missing. intros Hf. apply find_some in Hf as [Hin Hneg].
  split; [done|]. by apply negb_true_iff.
Qed.






(** ** Saving and confirming *)

(** C8.  A call that completes has saved one figure under the constant
    path [results/dispatch_plot.png], whatever [day] and [has_generator]
    are: the image replaces the file the path held, no other file
    changes, and after the save the confirmation is printed as one more
    line of output. *)
Theorem image_saved_then_confirmed w data day flag w' :
  create_dispatch_plot w data day flag = inr w' ->
  ∃ l fig w1,
    create_dispatch_plot_body data day flag = inr l ∧
    fig = {| figsize := (12, 8)%nat; fig_axes := ax l; tight_layout := true |} ∧
    savefig w "results/dispatch_plot.png" fig = inr w1 ∧
    w' = print w1 confirmation ∧
    files w' = <[ "results/dispatch_plot.png" := fig ]> (files w) ∧
    files w' !! "results/dispatch_plot.png" = Some fig ∧
    (∀ path, path ≠ "results/dispatch_plot.png" ->
             files w' !! path = files w !! path) ∧
    stdout w' = stdout w ++ [confirmation] ∧
    dirs w' = dirs w.
Proof.
  intros Hrun.
  destruct (create_dispatch_plot_success _ _ _ _ _ Hrun)
    as (l & w1 & Hbody & Hsave & ->).
  exists l, {| figsize := (12, 8)%nat; fig_axes := ax l; tight_layout := true |}, w1.
  change "results/dispatch_plot.png" with output_path.
  split; [exact Hbody|]. split; [done|]. split; [exact Hsave|]. split; [done|].
  apply savefig_inv in Hsave as [_ ->].
  cbn [print files stdout dirs]. repeat split.
  - apply lookup_insert_eq.
  - intros path Hne. by apply lookup_insert_ne.
Qed.

Lemma image_saved_then_confirmed_witness :
  create_dispatch_plot sample_world (sample 48) 1 true = inr world_after ∧
  files sample_world !! "results/dispatch_plot.png" = Some old_figure ∧
  is_Some (files world_after !! "results/dispatch_plot.png") ∧
  files world_after !! "results/dispatch_plot.png" ≠ Some old_figure ∧
  stdout world_after = ["earlier output"; confirmation].
Proof.
  assert (Hrun : create_dispatch_plot sample_world (sample 48) 1 true
                 = inr world_after) by (vm_compute; reflexivity).
  split; [exact Hrun|]. split; [vm_compute; reflexivity|].
  destruct (image_saved_then_confirmed _ _ _ _ _ Hrun)
    as (l & fig & w1 & _ & _ & _ & _ & _ & Hfile & _ & Hout & _).
  split; [by exists fig|]. split; [|exact Hout].
  clear. intros Hold. vm_compute in Hold. discriminate Hold.
Defined.

(** C10.  The line printed after a successful call is always the same,
    and it speaks of a folder [expected_values/results], while the image
    went to [results/dispatch_plot.png], in the folder [results]; nothing
    is written under the folder the message names. *)
Theorem confirmation_names_another_folder w data day flag w' :
  create_dispatch_plot w data day flag = inr w' ->
  last (stdout w') =
    Some "Dispatch plot saved as dispatch_plot.png in expected_values/results folder" ∧
  is_Some (files w' !! "results/dispatch_plot.png") ∧
  dirname "results/dispatch_plot.png" = "results" ∧
  "results" ≠ "expected_values/results" ∧
  files w' !! "expected_values/results/dispatch_plot.png" =
  files w !! "expected_values/results/dispatch_plot.png".
Proof.
  intros Hrun.
  destruct (create_dispatch_plot_success _ _ _ _ _ Hrun)
    as (l & w1 & Hbody & Hsave & ->).
  apply savefig_inv in Hsave as [_ ->].
  cbn [print files stdout]. repeat split.
  - by rewrite last_snoc.
  - unfold output_path. rewrite lookup_insert_eq. by eexists.
  - discriminate.
  - unfold output_path. by rewrite lookup_insert_ne.
Qed.

Lemma confirmation_names_another_folder_witness :
  create_dispatch_plot sample_world (sample 48) 1 true = inr world_after ∧
  last (stdout world_after) =
    Some "Dispatch plot saved as dispatch_plot.png in expected_values/results folder" ∧
  world_after.(files) !! "expected_values/results/dispatch_plot.png" = None.
Proof.
  assert (Hrun : create_dispatch_plot sample_world (sample 48) 1 true
                 = inr world_after) by (vm_compute; reflexivity).
  split; [exact Hrun|].
  destruct (confirmation_names_another_folder _ _ _ _ _ Hrun)
    as (Hlast & _ & _ & _ & Hother).
  split; [exact Hlast|].
  rewrite Hother. vm_compute. reflexivity.
Defined.

(** ** Every outcome of a run *)

(** The length of a slice depends on the length of the sequence only. *)
Lemma length_slice {A B} (l : list A) (k : list B) start stop :
  length l = length k ->
  length (slice l start stop) = length (slice k start stop).
Proof.
  intros Hl. unfold slice. rewrite !length_take, !length_drop, Hl. done.
Qed.

Lemma length_column_slice df name s start stop :
  frame_ok df -> find_column name (columns df) = Some s ->
  length (slice s start stop) = nrows (iloc df start stop).
Proof.
  intros Hok Hf. unfold iloc. cbn [nrows]. apply length_slice.
  by rewrite length_seq, (find_column_length df name s Hok Hf).
Qed.

(** A day of 24 rows: the run completes, or stops at the first column it
    does not find. *)
Lemma body_on_whole_day data day flag :
  (∀ name s, find_column name (columns data) = Some s ->
             length (slice s (day * 24) (day * 24 + 24)) = 24%nat) ->
  match first_missing data flag with
  | Some name => create_dispatch_plot_body data day flag = inl (KeyError name)
  | None => ∃ l, create_dispatch_plot_body data day flag = inr l
  end.
Proof.
  intros Hlen.
  destruct (first_missing data flag) as [name|] eqn:Hfirst.
  - unfold create_dispatch_plot_body. cbv zeta.
    change (iloc data _ _) with (day_slice data day). run_colors.
    run_get data day Hlen "Solar Production (kWh)" solar Es;
      [|first_missing_is Hfirst; congruence].
    run_add. run_band. run_iadd.
    run_get data day Hlen "Battery Charge (kWh)" charge Ec;
      [|first_missing_is Hfirst; congruence].
    run_add. run_band. run_iadd.
    run_get data day Hlen "Battery Discharge (kWh)" discharge Ed;
      [|first_missing_is Hfirst; congruence].
    run_add. run_band. run_iadd.
    destruct flag.
    + run_get data day Hlen "Generator Production (kWh)" generator Eg;
        [|first_missing_is Hfirst; congruence].
      run_add. run_band. run_iadd. cbn [bind ok fst snd].
      run_get data day Hlen "Lost Load (kWh)" lost El;
        [|first_missing_is Hfirst; congruence].
      run_add. run_band.
      run_get data day Hlen "Load (kWh)" load Eo;
        [|first_missing_is Hfirst; congruence].
      run_line.
      run_get data day Hlen "Curtailment (kWh)" curt Ek;
        [|first_missing_is Hfirst; congruence].
      first_missing_is Hfirst. discriminate.
    + cbn [bind ok fst snd].
      run_get data day Hlen "Lost Load (kWh)" lost El;
        [|first_missing_is Hfirst; congruence].
      run_add. run_band.
      run_get data day Hlen "Load (kWh)" load Eo;
        [|first_missing_is Hfirst; congruence].
      run_line.
      run_get data day Hlen "Curtailment (kWh)" curt Ek;
        [|first_missing_is Hfirst; congruence].
      first_missing_is Hfirst. discriminate.
  - assert (Hall : ∀ name, In name (required_columns flag) ->
              ∃ s, getitem (day_slice data day) name = inr s ∧ length s = 24%nat).
    { intros name Hin. unfold first_missing in Hfirst.
      pose proof (find_none _ _ Hfirst name Hin) as Hneg.
      unfold has_column in Hneg. rewrite getitem_day_slice.
      destruct (find_column name (columns data)) as [s|] eqn:E; [|discriminate].
      eauto. }
    destruct (Hall "Solar Production (kWh)") as (solar & Es & Ls);
      [destruct flag; cbn; tauto|].
    destruct (Hall "Battery Charge (kWh)") as (charge & Ec & Lc);
      [destruct flag; cbn; tauto|].
    destruct (Hall "Battery Discharge (kWh)") as (discharge & Ed & Ld);
      [destruct flag; cbn; tauto|].
    destruct (Hall "Lost Load (kWh)") as (lost & El & Ll);
      [destruct flag; cbn; tauto|].
    destruct (Hall "Load (kWh)") as (load & Eo & Lo);
      [destruct flag; cbn; tauto|].
    destruct (Hall "Curtailment (kWh)") as (curt & Ek & Lk);
      [destruct flag; cbn; tauto|].
    destruct flag.
    + destruct (Hall "Generator Production (kWh)") as (g & Eg & Lg);
        [cbn; tauto|].
      eexists. apply (body_complete data day true solar charge discharge
                        lost load curt (Some g)); eauto.
    + eexists. by apply (body_complete data day false solar charge discharge
                           lost load curt None).
Qed.

(** A day of another length: the first band cannot be stacked. *)
Lemma body_on_other_day data day flag :
  frame_ok data -> nrows (day_slice data day) ≠ 24%nat ->
  create_dispatch_plot_body data day flag =
  inl (if has_column data "Solar Production (kWh)"
       then ValueError 24 (nrows (day_slice data day))
       else KeyError "Solar Production (kWh)").
Proof.
  intros Hok Hn.
  unfold create_dispatch_plot_body. cbv zeta.
  change (iloc data _ _) with (day_slice data day).
  unfold has_column. rewrite getitem_day_slice.
  destruct (find_column "Solar Production (kWh)" (columns data)) as [s|] eqn:Es;
    [|done].
  cbn [bind ok].
  pose proof (length_column_slice data _ s (day * 24) (day * 24 + 24) Hok Es) as Hlen.
  change (iloc data _ _) with (day_slice data day) in Hlen.
  rewrite add_short by (rewrite length_np_zeros, Hlen; congruence).
  cbn [bind]. by rewrite length_np_zeros, Hlen.
Qed.

(** The two cases together, for a frame whose columns have one value per
    row. *)
Lemma body_outcome data day flag :
  frame_ok data ->
  (nrows (day_slice data day) = 24%nat ->
   match first_missing data flag with
   | Some name => create_dispatch_plot_body data day flag = inl (KeyError name)
   | None => ∃ l, create_dispatch_plot_body data day flag = inr l
   end) ∧
  (nrows (day_slice data day) ≠ 24%nat ->
   create_dispatch_plot_body data day flag =
   inl (if has_column data "Solar Production (kWh)"
        then ValueError 24 (nrows (day_slice data day))
        else KeyError "Solar Production (kWh)")).
Proof.
  intros Hok. split.
  - intros Hn. apply body_on_whole_day. intros name s Hf.
    rewrite (length_column_slice data name s _ _ Hok Hf). exact Hn.
  - by apply body_on_other_day.
Qed.

Lemma sample_unique n : unique_labels (sample n).
Proof.
  unfold unique_labels. cbn [sample columns map fst].
  apply (bool_decide_unpack _). vm_compute. reflexivity.
Qed.

(** X1.  On a frame with unique labels, what a run of the body does is
    decided by the number of rows of the day slice and by the columns of
    the frame, for every day index, negative ones included: a slice of
    24 rows is drawn completely unless a column the run reads is absent,
    and then the [KeyError] names the first such column; a slice of any
    other length stops the run at the first band. *)
Theorem run_outcome data day flag :
  frame_ok data -> unique_labels data ->
  (nrows (day_slice data day) = 24%nat ->
   match first_missing data flag with
   | Some name => create_dispatch_plot_body data day flag = inl (KeyError name)
   | None => ∃ l, create_dispatch_plot_body data day flag = inr l
   end) ∧
  (nrows (day_slice data day) ≠ 24%nat ->
   create_dispatch_plot_body data day flag =
   inl (if has_column data "Solar Production (kWh)"
        then ValueError 24 (nrows (day_slice data day))
        else KeyError "Solar Production (kWh)")).
Proof. intros Hok _. by apply body_outcome. Qed.

Lemma run_outcome_witness :
  frame_ok (sample 72) ∧ unique_labels (sample 72) ∧
  nrows (day_slice (sample 72) (-2)) = 24%nat ∧
  ∃ l, create_dispatch_plot_body (sample 72) (-2) false = inr l.
Proof.
  assert (Hok : frame_ok (sample 72)) by apply sample_ok.
  assert (Hlabels : unique_labels (sample 72)) by apply sample_unique.
  assert (Hn : nrows (day_slice (sample 72) (-2)) = 24%nat)
    by (vm_compute; reflexivity).
  assert (Hm : first_missing (sample 72) false = None)
    by (vm_compute; reflexivity).
  split; [exact Hok|]. split; [exact Hlabels|]. split; [exact Hn|].
  destruct (run_outcome (sample 72) (-2) false Hok Hlabels) as [Hwhole _].
  specialize (Hwhole Hn). rewrite Hm in Hwhole. exact Hwhole.
Defined.

Lemma dirname_output_path : dirname output_path = "results".
Proof. reflexivity. Qed.

Lemma savefig_output w fig :
  savefig w output_path fig =
  if decide ("results" ∈ dirs w)
  then inr {| dirs := dirs w; files := <[output_path := fig]> (files w);
              stdout := stdout w |}
  else inl (FileNotFoundError output_path).
Proof.
  unfold savefig, ok, raise. rewrite dirname_output_path.
  destruct (decide ("results" ∈ dirs w)) as [Hin|Hout].
  - rewrite decide_True; [done|by right].
  - rewrite decide_False; [done|]. intros [Hempty|Hin]; [discriminate|done].
Qed.

(** X2.  On a frame with unique labels the drawing completes exactly
    when the day slice has 24 rows and every column the run reads is
    present. *)
Theorem drawing_completes_iff data day flag :
  frame_ok data -> unique_labels data ->
  (∃ l, create_dispatch_plot_body data day flag = inr l) ↔
  nrows (day_slice data day) = 24%nat ∧ first_missing data flag = None.
Proof.
  intros Hok _. destruct (body_outcome data day flag Hok) as [Hwhole Hother].
  split.
  - intros [l Hbody].
    destruct (decide (nrows (day_slice data day) = 24%nat)) as [Hn|Hn].
    + specialize (Hwhole Hn).
      destruct (first_missing data flag) as [name|]; [|done].
      rewrite Hwhole in Hbody. discriminate.
    + rewrite (Hother Hn) in Hbody. discriminate.
  - intros (Hn & Hm). specialize (Hwhole Hn). by rewrite Hm in Hwhole.
Qed.

Lemma drawing_completes_iff_witness :
  frame_ok (sample 48) ∧ unique_labels (sample 48) ∧
  ∃ l, create_dispatch_plot_body (sample 48) 1 false = inr l.
Proof.
  assert (Hok : frame_ok (sample 48)) by apply sample_ok.
  assert (Hlabels : unique_labels (sample 48)) by apply sample_unique.
  split; [exact Hok|]. split; [exact Hlabels|].
  apply (drawing_completes_iff (sample 48) 1 false Hok Hlabels).
  split; vm_compute; reflexivity.
Defined.

(** X3.  On a frame with unique labels the drawing can fail in two ways
    only: with the [KeyError] of a column that the run reads and the
    frame lacks, or with the [ValueError] of a day slice that has not 24
    rows.  In particular slicing the day never fails with an
    [IndexError]. *)
Theorem drawing_fails_in_two_ways data day flag e :
  frame_ok data -> unique_labels data ->
  create_dispatch_plot_body data day flag = inl e ->
  (∃ name, e = KeyError name ∧ In name (required_columns flag) ∧
           has_column data name = false) ∨
  (e = ValueError 24 (nrows (day_slice data day)) ∧
   nrows (day_slice data day) ≠ 24%nat ∧
   has_column data "Solar Production (kWh)" = true).
Proof.
  intros Hok _ Hfail.
  destruct (body_outcome data day flag Hok) as [Hwhole Hother].
  destruct (decide (nrows (day_slice data day) = 24%nat)) as [Hn|Hn].
  - specialize (Hwhole Hn).
    destruct (first_missing data flag) as [name|] eqn:Hm.
    + rewrite Hwhole in Hfail. injection Hfail as <-. left. exists name.
      destruct (first_missing_Some _ _ _ Hm). by repeat split.
    + destruct Hwhole as [l Hbody]. rewrite Hbody in Hfail. discriminate.
  - rewrite (Hother Hn) in Hfail. injection Hfail as <-.
    destruct (has_column data "Solar Production (kWh)") eqn:Hs.
    + right. by repeat split.
    + left. exists "Solar Production (kWh)". repeat split; try done.
      destruct flag; cbn; tauto.
Qed.

Lemma drawing_fails_in_two_ways_witness :
  frame_ok (sample 30) ∧ unique_labels (sample 30) ∧
  create_dispatch_plot_body (sample 30) 1 true = inl (ValueError 24 6) ∧
  nrows (day_slice (sample 30) 1) ≠ 24%nat.
Proof.
  assert (Hok : frame_ok (sample 30)) by apply sample_ok.
  assert (Hlabels : unique_labels (sample 30)) by apply sample_unique.
  assert (Hfail : create_dispatch_plot_body (sample 30) 1 true
                  = inl (ValueError 24 6)) by (vm_compute; reflexivity).
  split; [exact Hok|]. split; [exact Hlabels|]. split; [exact Hfail|].
  destruct (drawing_fails_in_two_ways _ _ _ _ Hok Hlabels Hfail)
    as [(name & Hkey & _)|(_ & Hrows & _)].
  - discriminate Hkey.
  - exact Hrows.
Defined.

(** ** Negative day indices *)

Lemma slice_last_day_is_empty {A} (l : list A) : slice l (-1 * 24) (-1 * 24 + 24) = [].
Proof.
  unfold slice, slice_bound. cbn [Z.ltb Z.mul Z.add Z.compare Z.opp Z.pos_sub].
  change (-1 * 24 + 24) with 0. change (-1 * 24) with (-24).
  cbn. rewrite Z.min_l by lia.
  replace (Z.to_nat (0 - Z.max (-24 + Z.of_nat (length l)) 0)) with 0%nat by lia.
  apply take_0.
Qed.

(** X4.  The day index -1 never reaches the last day: its slice
    [iloc[-24:0]] is empty, so the call fails for every frame, at the
    first band (or at the lookup of an absent Solar Production column). *)
Theorem day_minus_one_always_fails w data flag :
  frame_ok data ->
  nrows (day_slice data (-1)) = 0%nat ∧
  create_dispatch_plot w data (-1) flag =
  inl (if has_column data "Solar Production (kWh)"
       then ValueError 24 0
       else KeyError "Solar Production (kWh)").
Proof.
  intros Hok.
  assert (Hn : nrows (day_slice data (-1)) = 0%nat).
  { unfold day_slice, iloc. cbn [nrows]. by rewrite slice_last_day_is_empty. }
  split; [exact Hn|].
  apply create_dispatch_plot_fails.
  rewrite body_on_other_day by (done || lia). by rewrite Hn.
Qed.

Lemma day_minus_one_always_fails_witness :
  frame_ok (sample 48) ∧
  create_dispatch_plot sample_world (sample 48) (-1) false = inl (ValueError 24 0).
Proof.
  assert (Hok : frame_ok (sample 48)) by apply sample_ok.
  split; [exact Hok|].
  exact (proj2 (day_minus_one_always_fails sample_world (sample 48) false Hok)).
Defined.

Lemma slice_from_the_end {A} (l : list A) (days day : Z) :
  Z.of_nat (length l) = 24 * days -> - days <= day <= -2 ->
  slice l (day * 24) (day * 24 + 24) =
  slice l ((days + day) * 24) ((days + day) * 24 + 24).
Proof.
  intros Hlen Hday. unfold slice, slice_bound.
  destruct (Z.ltb_spec (day * 24) 0); [|lia].
  destruct (Z.ltb_spec (day * 24 + 24) 0); [|lia].
  destruct (Z.ltb_spec ((days + day) * 24) 0); [lia|].
  destruct (Z.ltb_spec ((days + day) * 24 + 24) 0); [lia|].
  rewrite !Z.max_l, !Z.min_l by lia.
  f_equal; [lia|]. f_equal. lia.
Qed.

(** X5.  On a frame of [days] whole days, a day index between [-days]
    and -2 selects the same rows as the index [days + day]: negative
    indices count days from the end, the index -1 standing for no day at
    all. *)
Theorem negative_day_counts_from_the_end data (days day : Z) :
  frame_ok data ->
  Z.of_nat (nrows data) = 24 * days ->
  - days <= day <= -2 ->
  day_slice data day = day_slice data (days + day).
Proof.
  intros Hok Hrows Hday. unfold day_slice, iloc. f_equal.
  - f_equal. apply slice_from_the_end; [by rewrite length_seq|done].
  - apply map_ext_in. intros [name s] Hin. cbn [fst snd]. f_equal.
    apply slice_from_the_end; [|done].
    unfold frame_ok in Hok. rewrite Forall_forall in Hok.
    rewrite <- Hrows. f_equal.
    apply (Hok (name, s)). by apply list_elem_of_In.
Qed.

Lemma negative_day_counts_from_the_end_witness :
  frame_ok (sample 72) ∧ Z.of_nat (nrows (sample 72)) = 24 * 3 ∧
  - 3 <= -2 <= -2 ∧
  cell (day_slice (sample 72) (-2)) "Load (kWh)" 0 = Some 247%Q.
Proof.
  assert (Hok : frame_ok (sample 72)) by apply sample_ok.
  assert (Hrows : Z.of_nat (nrows (sample 72)) = 24 * 3) by reflexivity.
  assert (Hday : - 3 <= -2 <= -2) by lia.
  split; [exact Hok|]. split; [exact Hrows|]. split; [exact Hday|].
  rewrite (negative_day_counts_from_the_end (sample 72) 3 (-2) Hok Hrows Hday).
  vm_compute. reflexivity.
Defined.

(** ** The finished figure *)

(** X6.  The outflow stack has neither gaps nor overlaps: the Solar band
    stands on the axis, every later outflow band starts on the curve where
    the band before it ends, and the final running total is the lower
    edge of the Lost Load band. *)
Theorem outflow_stack_has_no_gaps data day flag l :
  create_dispatch_plot_body data day flag = inr l ->
  ∃ b_solar b_discharge b_lost,
    band_of (ax l) "Solar Production" = Some b_solar ∧
    band_of (ax l) "Battery Discharging" = Some b_discharge ∧
    band_of (ax l) "Lost Load" = Some b_lost ∧
    band_y1 b_solar = np_zeros 24 ∧
    band_y1 b_discharge = band_y2 b_solar ∧
    (if flag
     then ∃ b_gen, band_of (ax l) "Generator" = Some b_gen ∧
                   band_y1 b_gen = band_y2 b_discharge ∧
                   band_y1 b_lost = band_y2 b_gen
     else band_y1 b_lost = band_y2 b_discharge) ∧
    cumulative_outflow l = band_y1 b_lost.
Proof.
  intros Hrun.
  destruct (body_success _ _ _ _ Hrun)
    as (solar & charge & discharge & lost & load & curt & gen &
        _ & _ & _ & _ & _ & _ & Hgen & _ & _ & _ & _ & _ & _ & ->).
  cbn [ax cumulative_outflow].
  exists (solar_band solar), (discharge_band solar discharge),
    (lost_band solar discharge lost gen).
  destruct flag.
  - destruct Hgen as (g & -> & _). repeat split.
    exists (generator_band solar discharge g). by repeat split.
  - subst gen. by repeat split.
Qed.

Lemma outflow_stack_has_no_gaps_witness :
  create_dispatch_plot_body (sample 48) 1 true = inr second_day_on ∧
  ∃ b_lost, band_of (ax second_day_on) "Lost Load" = Some b_lost ∧
            cumulative_outflow second_day_on = band_y1 b_lost.
Proof.
  assert (Hrun : create_dispatch_plot_body (sample 48) 1 true = inr second_day_on)
    by (vm_compute; reflexivity).
  split; [exact Hrun|].
  destruct (outflow_stack_has_no_gaps _ _ _ _ Hrun)
    as (b1 & b2 & b3 & _ & _ & Hlost & _ & _ & _ & Htotal).
  exists b3. split; assumption.
Defined.

(** X7.  Every artist of a finished figure has one value for each of the
    hours 0 to 23: the bands on both edges, the curves on their single
    one.  All bands are half transparent and all curves two points wide. *)
Theorem artists_span_the_day data day flag l :
  create_dispatch_plot_body data day flag = inr l ->
  Forall (fun b => band_x b = range 24 ∧ length (band_y1 b) = 24%nat ∧
                   length (band_y2 b) = 24%nat ∧ band_alpha b = 1 # 2)
         (bands (ax l)) ∧
  Forall (fun c => line_x c = range 24 ∧ length (line_y c) = 24%nat ∧
                   line_width c = 2%nat)
         (lines (ax l)).
Proof.
  intros Hrun.
  destruct (body_success _ _ _ _ Hrun)
    as (solar & charge & discharge & lost & load & curt & gen &
        _ & _ & _ & _ & _ & _ & Hgen & Ls & Lc & Ld & Ll & Lo & Lk & ->).
  cbn [ax drawn_axes bands lines].
  assert (Hlayer : ∀ y1 y2 label color,
            length y1 = 24%nat -> length y2 = 24%nat ->
            (fun b => band_x b = range 24 ∧ length (band_y1 b) = 24%nat ∧
                      length (band_y2 b) = 24%nat ∧ band_alpha b = 1 # 2)
              (layer y1 y2 label color)) by (by intros; repeat split).
  split.
  - unfold drawn_bands, solar_band, charge_band, discharge_band, lost_band.
    destruct flag.
    + destruct Hgen as (g & -> & Lg & _). unfold generator_band.
      repeat (apply List.Forall_cons || apply List.Forall_nil);
        apply Hlayer;
        unfold after_generator, after_discharge, after_solar, after_charge;
        solve_lengths.
    + subst gen.
      repeat (apply List.Forall_cons || apply List.Forall_nil);
        apply Hlayer;
        unfold after_generator, after_discharge, after_solar, after_charge;
        solve_lengths.
  - unfold load_line, max_solar_line.
    repeat (apply List.Forall_cons || apply List.Forall_nil);
      cbn [line_x line_y line_width]; repeat split; solve_lengths.
Qed.

Lemma artists_span_the_day_witness :
  create_dispatch_plot_body (sample 48) 1 true = inr second_day_on ∧
  Forall (fun c => line_x c = range 24 ∧ length (line_y c) = 24%nat ∧
                   line_width c = 2%nat)
         (lines (ax second_day_on)).
Proof.
  assert (Hrun : create_dispatch_plot_body (sample 48) 1 true = inr second_day_on)
    by (vm_compute; reflexivity).
  split; [exact Hrun|].
  exact (proj2 (artists_span_the_day _ _ _ _ Hrun)).
Defined.

(** X8.  The decorations of a finished figure: the two axis labels, the
    grid, the title, which counts days from one, and one legend, the
    upper-left one of the second [legend] call; the placement asked for
    by the first call leaves no trace. *)
Theorem decorations data day flag l :
  create_dispatch_plot_body data day flag = inr l ->
  xlabel (ax l) = "Hour" ∧
  ylabel (ax l) = "Energy (kWh)" ∧
  grid (ax l) = true ∧
  title (ax l) = "Dispatch Plot - Day " +:+ pretty (day + 1) ∧
  ∃ lg, legend (ax l) = Some lg ∧
        legend_loc lg = "upper left" ∧
        legend_anchor lg = (1 # 100, 99 # 100)%Q ∧
        legend_frameon lg = Some true ∧
        legend_fontsize lg = Some 10%nat.
Proof.
  intros Hrun.
  destruct (body_success _ _ _ _ Hrun)
    as (solar & charge & discharge & lost & load & curt & gen &
        _ & _ & _ & _ & _ & _ & _ & _ & _ & _ & _ & _ & _ & ->).
  cbn [ax drawn_axes xlabel ylabel grid title legend].
  repeat split. eexists. by repeat split.
Qed.

Lemma decorations_witness :
  create_dispatch_plot_body (sample 48) 1 true = inr second_day_on ∧
  title (ax second_day_on) = "Dispatch Plot - Day 2".
Proof.
  assert (Hrun : create_dispatch_plot_body (sample 48) 1 true = inr second_day_on)
    by (vm_compute; reflexivity).
  split; [exact Hrun|].
  destruct (decorations _ _ _ _ Hrun) as (_ & _ & _ & Htitle & _).
  rewrite Htitle. vm_compute. reflexivity.
Defined.

(** X9.  The title tells the days apart: two finished figures with the
    same title were drawn for the same day index. *)
Theorem titles_tell_days_apart data1 data2 day1 day2 flag1 flag2 l1 l2 :
  create_dispatch_plot_body data1 day1 flag1 = inr l1 ->
  create_dispatch_plot_body data2 day2 flag2 = inr l2 ->
  title (ax l1) = title (ax l2) ->
  day1 = day2.
Proof.
  intros Hrun1 Hrun2.
  destruct (body_success _ _ _ _ Hrun1)
    as (? & ? & ? & ? & ? & ? & ? &
        _ & _ & _ & _ & _ & _ & _ & _ & _ & _ & _ & _ & _ & ->).
  destruct (body_success _ _ _ _ Hrun2)
    as (? & ? & ? & ? & ? & ? & ? &
        _ & _ & _ & _ & _ & _ & _ & _ & _ & _ & _ & _ & _ & ->).
  cbn [ax drawn_axes title]. intros Htitle.
  apply (inj (String.append "Dispatch Plot - Day ")) in Htitle.
  apply (inj pretty) in Htitle. lia.
Qed.

Lemma titles_tell_days_apart_witness :
  create_dispatch_plot_body (sample 48) 1 true = inr second_day_on ∧
  create_dispatch_plot_body recharged 1 true = inr second_day_recharged ∧
  title (ax second_day_on) = title (ax second_day_recharged) ∧
  1 = 1.
Proof.
  assert (Hrun1 : create_dispatch_plot_body (sample 48) 1 true = inr second_day_on)
    by (vm_compute; reflexivity).
  assert (Hrun2 : create_dispatch_plot_body recharged 1 true
                  = inr second_day_recharged) by (vm_compute; reflexivity).
  assert (Htitle : title (ax second_day_on) = title (ax second_day_recharged))
    by (vm_compute; reflexivity).
  split; [exact Hrun1|]. split; [exact Hrun2|]. split; [exact Htitle|].
  exact (titles_tell_days_apart _ _ _ _ _ _ _ _ Hrun1 Hrun2 Htitle).
Defined.

(** X10.  On a frame with unique labels the load curve is not stacked:
    it carries the Load column of the day unchanged, in black, drawn
    before the dashed orange curve of the maximum solar production, and
    these two are all the curves. *)
Theorem load_curve_is_the_load_column data day flag l :
  unique_labels data ->
  create_dispatch_plot_body data day flag = inr l ->
  ∃ c_load c_max,
    lines (ax l) = [c_load; c_max] ∧
    line_label c_load = "Load" ∧
    getitem (daily_data l) "Load (kWh)" = inr (line_y c_load) ∧
    line_color c_load = "#000000" ∧ line_style c_load = "-" ∧
    line_label c_max = "Max Solar Production" ∧
    line_color c_max = "orange" ∧ line_style c_max = "--".
Proof.
  intros _ Hrun.
  destruct (body_success _ _ _ _ Hrun)
    as (solar & charge & discharge & lost & load & curt & gen &
        _ & _ & _ & _ & Eo & _ & _ & _ & _ & _ & _ & _ & _ & ->).
  cbn [ax daily_data drawn_axes lines].
  exists (load_line load), (max_solar_line solar curt). by repeat split.
Qed.

Lemma load_curve_is_the_load_column_witness :
  unique_labels (sample 48) ∧
  create_dispatch_plot_body (sample 48) 1 true = inr second_day_on ∧
  ∃ c_load c_max,
    lines (ax second_day_on) = [c_load; c_max] ∧
    getitem (daily_data second_day_on) "Load (kWh)" = inr (line_y c_load).
Proof.
  assert (Hrun : create_dispatch_plot_body (sample 48) 1 true = inr second_day_on)
    by (vm_compute; reflexivity).
  assert (Hlabels : unique_labels (sample 48)) by apply sample_unique.
  split; [exact Hlabels|]. split; [exact Hrun|].
  destruct (load_curve_is_the_load_column _ _ _ _ Hlabels Hrun)
    as (c_load & c_max & Hlines & _ & Hcol & _).
  exists c_load, c_max. split; assumption.
Defined.

(** X11.  Asking for the generator changes nothing but the stack above
    the Battery Discharge band: the first three bands, both curves, all
    decorations and the inflow total are the same with and without it;
    the Generator band is put where the Lost Load band started, and the
    Lost Load band moves on top of it. *)
Theorem generator_only_changes_the_upper_stack data day l_on l_off :
  create_dispatch_plot_body data day true = inr l_on ->
  create_dispatch_plot_body data day false = inr l_off ->
  ∃ lower b_gen b_lost_on b_lost_off,
    length lower = 3%nat ∧
    bands (ax l_on) = lower ++ [b_gen; b_lost_on] ∧
    bands (ax l_off) = lower ++ [b_lost_off] ∧
    band_y1 b_gen = band_y1 b_lost_off ∧
    band_y1 b_lost_on = band_y2 b_gen ∧
    lines (ax l_on) = lines (ax l_off) ∧
    xlabel (ax l_on) = xlabel (ax l_off) ∧
    ylabel (ax l_on) = ylabel (ax l_off) ∧
    title (ax l_on) = title (ax l_off) ∧
    legend (ax l_on) = legend (ax l_off) ∧
    grid (ax l_on) = grid (ax l_off) ∧
    cumulative_inflow l_on = cumulative_inflow l_off ∧
    daily_data l_on = daily_data l_off.
Proof.
  intros Hon Hoff.
  destruct (body_success _ _ _ _ Hon)
    as (solar & charge & discharge & lost & load & curt & gen &
        Es & Ec & Ed & El & Eo & Ek & (g & -> & _) &
        _ & _ & _ & _ & _ & _ & ->).
  destruct (body_success _ _ _ _ Hoff)
    as (solar' & charge' & discharge' & lost' & load' & curt' & gen' &
        Es' & Ec' & Ed' & El' & Eo' & Ek' & -> &
        _ & _ & _ & _ & _ & _ & ->).
  rewrite Es in Es'. rewrite Ec in Ec'. rewrite Ed in Ed'.
  rewrite El in El'. rewrite Eo in Eo'. rewrite Ek in Ek'.
  injection Es' as <-. injection Ec' as <-. injection Ed' as <-.
  injection El' as <-. injection Eo' as <-. injection Ek' as <-.
  cbn [ax drawn_axes bands lines xlabel ylabel title legend grid
       cumulative_inflow daily_data].
  exists [solar_band solar; charge_band charge; discharge_band solar discharge],
    (generator_band solar discharge g),
    (lost_band solar discharge lost (Some g)),
    (lost_band solar discharge lost None).
  by repeat split.
Qed.

Lemma generator_only_changes_the_upper_stack_witness :
  create_dispatch_plot_body (sample 48) 1 true = inr second_day_on ∧
  create_dispatch_plot_body (sample 48) 1 false
  = inr second_day_off ∧
  lines (ax second_day_on)
  = lines (ax second_day_off).
Proof.
  assert (Hon : create_dispatch_plot_body (sample 48) 1 true = inr second_day_on)
    by (vm_compute; reflexivity).
  assert (Hoff : create_dispatch_plot_body (sample 48) 1 false
                 = inr second_day_off)
    by (vm_compute; reflexivity).
  split; [exact Hon|]. split; [exact Hoff|].
  destruct (generator_only_changes_the_upper_stack _ _ _ _ Hon Hoff)
    as (lower & b1 & b2 & b3 & _ & _ & _ & _ & _ & Hlines & _).
  exact Hlines.
Defined.

(** ** Rows outside the day *)

Lemma slice_head {A} (l : list A) (stop : Z) :
  0 <= stop -> slice l 0 stop = take (Z.to_nat stop) l.
Proof.
  intros Hs. unfold slice, slice_bound.
  destruct (Z.ltb_spec stop 0); [lia|]. cbn [Z.ltb Z.compare].
  rewrite (Z.min_l 0) by lia. rewrite Z.sub_0_r.
  change (Z.to_nat 0) with 0%nat. rewrite drop_0.
  destruct (decide (stop <= Z.of_nat (length l))).
  - by rewrite Z.min_l by lia.
  - rewrite Z.min_r by lia. rewrite !take_ge; [done|lia|lia].
Qed.

Lemma slice_head_day {A} (l : list A) (day : Z) :
  0 <= day ->
  slice (slice l 0 ((day + 1) * 24)) (day * 24) (day * 24 + 24) =
  slice l (day * 24) (day * 24 + 24).
Proof.
  intros Hd. rewrite slice_head by lia. rewrite !slice_day by done.
  replace (Z.to_nat ((day + 1) * 24)) with (Z.to_nat (day * 24) + 24)%nat by lia.
  rewrite <- take_drop_commute. by rewrite take_take, Nat.min_id.
Qed.

Lemma day_slice_of_head data day :
  0 <= day ->
  day_slice (iloc data 0 ((day + 1) * 24)) day = day_slice data day.
Proof.
  intros Hd. unfold day_slice, iloc. cbn [nrows columns]. f_equal.
  - rewrite <- (slice_head_day (seq 0 (nrows data)) day Hd).
    apply length_slice. by rewrite length_seq.
  - rewrite map_map. apply map_ext. intros [name s]. cbn [fst snd].
    by rewrite slice_head_day.
Qed.

(** The body sees the frame through the slice of the day only. *)
Lemma body_of_day_slice data1 data2 day flag :
  day_slice data1 day = day_slice data2 day ->
  create_dispatch_plot_body data1 day flag = create_dispatch_plot_body data2 day flag.
Proof.
  intros Hslice. unfold create_dispatch_plot_body. cbv zeta.
  change (iloc data1 _ _) with (day_slice data1 day).
  change (iloc data2 _ _) with (day_slice data2 day).
  by rewrite Hslice.
Qed.

(** X12.  The rows after the requested day are never looked at: the call
    on the frame cut off after that day does what the call on the whole
    frame does, be it the same failure or the same saved figure and
    output. *)
Theorem later_rows_are_ignored w data day flag :
  0 <= day ->
  create_dispatch_plot w (iloc data 0 ((day + 1) * 24)) day flag =
  create_dispatch_plot w data day flag.
Proof.
  intros Hd. unfold create_dispatch_plot.
  by rewrite (body_of_day_slice _ data day flag (day_slice_of_head data day Hd)).
Qed.

Lemma later_rows_are_ignored_witness :
  0 <= 0 ∧
  nrows (iloc (sample 48) 0 ((0 + 1) * 24)) = 24%nat ∧
  create_dispatch_plot sample_world (iloc (sample 48) 0 ((0 + 1) * 24)) 0 true =
  create_dispatch_plot sample_world (sample 48) 0 true.
Proof.
  assert (Hd : 0 <= 0) by lia.
  split; [exact Hd|]. split; [vm_compute; reflexivity|].
  exact (later_rows_are_ignored sample_world (sample 48) 0 true Hd).
Defined.

(** ** Calls in sequence *)

(** X13.  Only the last plot survives.  After two completed calls the
    files are those that the second call alone would have left, because
    both write the same path; the output has the confirmation twice. *)
Theorem only_the_last_plot_survives w data1 day1 flag1 w1 data2 day2 flag2 w2 :
  create_dispatch_plot w data1 day1 flag1 = inr w1 ->
  create_dispatch_plot w1 data2 day2 flag2 = inr w2 ->
  ∃ w2',
    create_dispatch_plot w data2 day2 flag2 = inr w2' ∧
    files w2 = files w2' ∧
    dirs w2 = dirs w ∧
    stdout w2 = stdout w ++ [confirmation; confirmation].
Proof.
  intros Hfirst Hsecond.
  destruct (create_dispatch_plot_success _ _ _ _ _ Hfirst)
    as (l1 & v1 & Hbody1 & Hsave1 & ->).
  destruct (create_dispatch_plot_success _ _ _ _ _ Hsecond)
    as (l2 & v2 & Hbody2 & Hsave2 & ->).
  apply savefig_inv in Hsave1 as [Hdir ->].
  apply savefig_inv in Hsave2 as [_ ->].
  cbn [print dirs files stdout].
  unfold create_dispatch_plot. rewrite Hbody2. cbn [bind].
  unfold savefig. rewrite decide_True by done. cbn [bind ok].
  eexists. split; [reflexivity|].
  cbn [print dirs files stdout]. repeat split.
  - apply insert_insert_eq.
  - by rewrite <- app_assoc.
Qed.

Lemma only_the_last_plot_survives_witness :
  create_dispatch_plot sample_world (sample 48) 1 true = inr world_after ∧
  create_dispatch_plot world_after (sample 48) 0 false
  = inr world_after_twice ∧
  stdout world_after_twice
  = ["earlier output"; confirmation; confirmation].
Proof.
  assert (Hfirst : create_dispatch_plot sample_world (sample 48) 1 true
                   = inr world_after) by (vm_compute; reflexivity).
  assert (Hsecond : create_dispatch_plot world_after (sample 48) 0 false
                    = inr world_after_twice) by (vm_compute; reflexivity).
  split; [exact Hfirst|]. split; [exact Hsecond|].
  destruct (only_the_last_plot_survives _ _ _ _ _ _ _ _ _ Hfirst Hsecond)
    as (w2' & _ & _ & _ & Hout).
  exact Hout.
Defined.

(** ** The script *)

(** X14.  The call the script makes plots the first day without the
    generator.  On a frame of at least 24 rows that has the six columns
    such a run reads (Generator Production is not among them), in a
    place where [results] exists, the process ends normally, the figure
    saved is titled for day 1 and has the four bands Solar, Battery
    Charging, Battery Discharging and Lost Load, and one line is printed. *)
Theorem script_plots_the_first_day w data :
  frame_ok data ->
  24 <= Z.of_nat (nrows data) ->
  first_missing data false = None ->
  "results" ∈ dirs w ->
  ∃ w' fig,
    script w data = Exited w' ∧
    files w' !! "results/dispatch_plot.png" = Some fig ∧
    title (fig_axes fig) = "Dispatch Plot - Day 1" ∧
    map band_label (bands (fig_axes fig)) =
      ["Solar Production"; "Battery Charging"; "Battery Discharging"; "Lost Load"] ∧
    stdout w' = stdout w ++ [confirmation].
Proof.
  intros Hok Hrows Hcols Hdir.
  pose proof (body_full_day data 0 false Hok (Z.le_refl 0)) as Hbody.
  rewrite Hcols in Hbody. destruct Hbody as [l Hbody]; [lia|].
  destruct (body_success _ _ _ _ Hbody)
    as (solar & charge & discharge & lost & load & curt & gen &
        _ & _ & _ & _ & _ & _ & -> & _ & _ & _ & _ & _ & _ & Hl).
  unfold script, create_dispatch_plot. rewrite Hbody. cbn [bind].
  rewrite savefig_output, decide_True by done. cbn [bind ok].
  eexists _, _. split; [reflexivity|].
  cbn [print files stdout]. rewrite Hl. cbn [ax fig_axes].
  split; [apply lookup_insert_eq|]. by repeat split.
Qed.

Lemma script_plots_the_first_day_witness :
  frame_ok (sample 30) ∧ 24 <= Z.of_nat (nrows (sample 30)) ∧
  first_missing (sample 30) false = None ∧ "results" ∈ dirs sample_world ∧
  ∃ w', script sample_world (sample 30) = Exited w' ∧
        stdout w' = ["earlier output"; confirmation].
Proof.
  assert (Hok : frame_ok (sample 30)) by apply sample_ok.
  assert (Hrows : 24 <= Z.of_nat (nrows (sample 30))) by (cbn; lia).
  assert (Hcols : first_missing (sample 30) false = None)
    by (vm_compute; reflexivity).
  assert (Hdir : "results" ∈ dirs sample_world)
    by (unfold sample_world; cbn [dirs]; by apply elem_of_singleton_2).
  split; [exact Hok|]. split; [exact Hrows|]. split; [exact Hcols|].
  split; [exact Hdir|].
  destruct (script_plots_the_first_day sample_world (sample 30) Hok Hrows Hcols Hdir)
    as (w' & fig & Hscript & _ & _ & _ & Hout).
  exists w'. split; assumption.
Defined.

(** ** Bounds on the day slice and on the bands *)

Lemma length_slice_at_most {A} (l : list A) (start : Z) :
  (length (slice l start (start + 24)) <= 24)%nat.
Proof.
  unfold slice, slice_bound. rewrite length_take.
  destruct (Z.ltb_spec start 0), (Z.ltb_spec (start + 24) 0); lia.
Qed.

(** X15.  No day slice has more than 24 rows, whatever the day index,
    and the only [ValueError] a call on a frame with unique labels can
    end with compares 24 with a smaller number, the rows of the day
    slice; for a day index that is not negative this happens only when
    the frame ends before the day does. *)
Theorem value_error_means_short_day w data day flag a n :
  frame_ok data -> unique_labels data ->
  create_dispatch_plot w data day flag = inl (ValueError a n) ->
  a = 24%nat ∧ n = nrows (day_slice data day) ∧ (n < 24)%nat ∧
  (0 <= day -> Z.of_nat (nrows data) < (day + 1) * 24).
Proof.
  intros Hok _ Hfail.
  destruct (body_outcome data day flag Hok) as [Hwhole Hother].
  assert (Hmost : (nrows (day_slice data day) <= 24)%nat).
  { unfold day_slice, iloc. cbn [nrows]. apply length_slice_at_most. }
  unfold create_dispatch_plot in Hfail.
  destruct (decide (nrows (day_slice data day) = 24%nat)) as [Hn|Hn].
  - specialize (Hwhole Hn). destruct (first_missing data flag) as [name|].
    + rewrite Hwhole in Hfail. discriminate.
    + destruct Hwhole as [l Hbody]. rewrite Hbody in Hfail. cbn [bind] in Hfail.
      rewrite savefig_output in Hfail. case_decide; discriminate.
  - rewrite (Hother Hn) in Hfail. cbn [bind] in Hfail.
    destruct (has_column data "Solar Production (kWh)"); [|discriminate].
    assert (Ha : a = 24%nat) by congruence.
    assert (Hrows : n = nrows (day_slice data day)) by congruence.
    clear Hfail. subst a n.
    split; [done|]. split; [done|]. split; [lia|].
    intros Hd. rewrite nrows_day_slice in Hn by done. lia.
Qed.

Lemma value_error_means_short_day_witness :
  frame_ok (sample 30) ∧ unique_labels (sample 30) ∧
  create_dispatch_plot sample_world (sample 30) 1 true = inl (ValueError 24 6) ∧
  Z.of_nat (nrows (sample 30)) < (1 + 1) * 24.
Proof.
  assert (Hok : frame_ok (sample 30)) by apply sample_ok.
  assert (Hfail : create_dispatch_plot sample_world (sample 30) 1 true
                  = inl (ValueError 24 6)) by (vm_compute; reflexivity).
  assert (Hlabels : unique_labels (sample 30)) by apply sample_unique.
  split; [exact Hok|]. split; [exact Hlabels|]. split; [exact Hfail|].
  destruct (value_error_means_short_day _ _ _ _ _ _ Hok Hlabels Hfail)
    as (_ & _ & _ & Hshort).
  apply Hshort. lia.
Defined.

Lemma value_at_bounds ys h lo hi y :
  value_at ys h lo -> ys !! h = Some y -> (lo == hi)%Q -> (y == hi)%Q.
Proof.
  intros (y' & Hy' & Hlo) Hy Heq. rewrite Hy in Hy'. injection Hy' as <-.
  by rewrite Hlo.
Qed.

(** X16.  Where the values of an hour are not negative the bands do not
    cross: every outflow band lies on or above the axis with its upper
    edge on or above its lower edge, and the Battery Charging band lies
    on or below the axis with its second edge on or below its first. *)
Theorem bands_do_not_cross data day flag l h b lo hi :
  create_dispatch_plot_body data day flag = inr l ->
  (h < 24)%nat ->
  (∀ name v, In name (required_columns flag) ->
             cell (daily_data l) name h = Some v -> (0 <= v)%Q) ->
  In b (bands (ax l)) ->
  band_y1 b !! h = Some lo -> band_y2 b !! h = Some hi ->
  if String.eqb (band_label b) "Battery Charging"
  then (hi <= lo)%Q ∧ (lo <= 0)%Q
  else (0 <= lo)%Q ∧ (lo <= hi)%Q.
Proof.
  intros Hrun Hh Hpos Hb Hlo Hhi.
  destruct (hour_facts _ _ _ _ h Hrun Hh)
    as (solar & charge & discharge & lost & load & curt & gen &
        s & c & d & x & o & k & Hdata & Hax & _ & _ & Hgen &
        Hs & Hc & Hd & Hx & Ho & Hk & Cs & Cc & Cd & Cx & Co & Ck).
  rewrite Hdata in Hpos. rewrite Hax in Hb. cbn [drawn_axes bands] in Hb.
  assert (Ps : (0 <= s)%Q)
    by (apply (Hpos "Solar Production (kWh)" s); [destruct flag; cbn; tauto|exact Cs]).
  assert (Pc : (0 <= c)%Q)
    by (apply (Hpos "Battery Charge (kWh)" c); [destruct flag; cbn; tauto|exact Cc]).
  assert (Pd : (0 <= d)%Q)
    by (apply (Hpos "Battery Discharge (kWh)" d); [destruct flag; cbn; tauto|exact Cd]).
  assert (Px : (0 <= x)%Q)
    by (apply (Hpos "Lost Load (kWh)" x); [destruct flag; cbn; tauto|exact Cx]).
  pose proof (value_at_zeros 24 h Hh) as V0.
  pose proof (value_after_solar solar h s Hh Hs) as V1.
  pose proof (value_after_charge charge h c Hh Hc) as Vc.
  pose proof (value_after_discharge solar discharge h s d Hh Hs Hd) as V2.
  assert (Hsd : (0 <= s + d)%Q).
  { rewrite <- (Qplus_0_r 0). by apply Qplus_le_compat. }
  assert (Hgen' : ∃ g, (0 <= g)%Q ∧
            value_at (after_generator solar discharge gen) h (s + d + g) ∧
            ∀ gs, gen = Some gs -> value_at gs h g).
  { destruct flag.
    - destruct Hgen as (gs & -> & Lg & Eg).
      destruct (column_value gs h Lg Hh) as [g Hg]. exists g. split.
      + apply (Hpos "Generator Production (kWh)" g); [cbn; tauto|].
        by rewrite (cell_getitem _ _ _ h Eg).
      + split.
        * cbn [after_generator]. apply value_at_plus; [done|by apply value_at_exact].
        * intros gs' [= <-]. by apply value_at_exact.
    - subst gen. exists 0%Q. split; [apply Qle_refl|]. split; [|done].
      cbn [after_generator]. eapply value_at_eq; [exact V2|ring]. }
  destruct Hgen' as (g & Pg & V3 & Vg).
  assert (Hsdg : (0 <= s + d + g)%Q).
  { rewrite <- (Qplus_0_r 0). by apply Qplus_le_compat. }
  unfold drawn_bands in Hb. rewrite !in_app_iff in Hb. cbn [In] in Hb.
  destruct Hb as [[<-|[<-|[<-|[]]]]|[Hb|[<-|[]]]];
    cbn [solar_band charge_band discharge_band lost_band layer
         band_label band_y1 band_y2 String.eqb Ascii.eqb Bool.eqb] in *.
  - rewrite (value_at_bounds _ _ _ 0 _ V0 Hlo) by reflexivity.
    rewrite (value_at_bounds _ _ _ s _ V1 Hhi) by reflexivity.
    split; [apply Qle_refl|done].
  - rewrite (value_at_bounds _ _ _ (- 0) _ (value_at_neg _ _ _ V0) Hlo) by reflexivity.
    rewrite (value_at_bounds _ _ _ (- c) _ (value_at_neg _ _ _ Vc) Hhi) by reflexivity.
    split; [by apply Qopp_le_compat|apply Qle_refl].
  - rewrite (value_at_bounds _ _ _ s _ V1 Hlo) by reflexivity.
    rewrite (value_at_bounds _ _ _ (s + d) _ V2 Hhi) by reflexivity.
    split; [done|]. rewrite <- (Qplus_0_r s) at 1. by apply Qplus_le_r.
  - destruct gen as [gs|]; [|done]. destruct Hb as [<-|[]].
    cbn [generator_band layer band_label band_y1 band_y2
         String.eqb Ascii.eqb Bool.eqb] in *.
    rewrite (value_at_bounds _ _ _ (s + d) _ V2 Hlo) by reflexivity.
    rewrite (value_at_bounds _ _ _ (s + d + g) _
               (value_at_plus _ _ _ _ _ V2 (Vg gs eq_refl)) Hhi) by reflexivity.
    split; [done|]. rewrite <- (Qplus_0_r (s + d)) at 1. by apply Qplus_le_r.
  - rewrite (value_at_bounds _ _ _ (s + d + g) _ V3 Hlo) by reflexivity.
    rewrite (value_at_bounds _ _ _ (s + d + g + x) _
               (value_at_plus _ _ _ _ _ V3 (value_at_exact _ _ _ Hx)) Hhi)
      by reflexivity.
    split; [done|]. rewrite <- (Qplus_0_r (s + d + g)) at 1. by apply Qplus_le_r.
Qed.

Lemma bands_do_not_cross_witness :
  create_dispatch_plot_body (sample 48) 1 true = inr second_day_on ∧
  (3 < 24)%nat ∧
  In second_day_top_band (bands (ax second_day_on)) ∧
  band_y1 second_day_top_band !! 3%nat = Some 818%Q ∧
  band_y2 second_day_top_band !! 3%nat = Some 1094%Q ∧
  (0 <= 818)%Q ∧ (818 <= 1094)%Q.
Proof.
  assert (Hrun : create_dispatch_plot_body (sample 48) 1 true = inr second_day_on)
    by (vm_compute; reflexivity).
  assert (Hh : (3 < 24)%nat) by lia.
  assert (Hin : In second_day_top_band (bands (ax second_day_on)))
    by (vm_compute; do 4 right; left; reflexivity).
  assert (Hlo : band_y1 second_day_top_band !! 3%nat = Some 818%Q)
    by (vm_compute; reflexivity).
  assert (Hhi : band_y2 second_day_top_band !! 3%nat = Some 1094%Q)
    by (vm_compute; reflexivity).
  assert (Hpos : ∀ name v, In name (required_columns true) ->
            cell (daily_data second_day_on) name 3 = Some v -> (0 <= v)%Q).
  { intros name v Hname Hcell. cbn in Hname.
    destruct Hname as [<-|[<-|[<-|[<-|[<-|[<-|[<-|[]]]]]]]];
      vm_compute in Hcell; injection Hcell as <-; discriminate. }
  split; [exact Hrun|]. split; [exact Hh|]. split; [exact Hin|].
  split; [exact Hlo|]. split; [exact Hhi|].
  exact (bands_do_not_cross _ _ _ _ _ _ _ _ Hrun Hh Hpos Hin Hlo Hhi).
Defined.
